(** * caselaw-factchek: reference graph, rule batteries and score aggregation

    A shallow embedding of the scoring pipeline of the repository
    (src/cross_reference_analyzer.py, src/logic_validator.py,
    src/timeline_analyzer.py, src/fact_checker.py) and the properties of it
    that the specification states.

    Modelling conventions.
    - A Python [str] is a [string] holding its UTF-8 encoding.  UTF-8 is
      self-synchronising, so [needle in haystack] on code points and the
      byte-level test [str_in] agree on well-formed text.
    - A Python [int] is a [Z]; a [dict] keyed by article number is a
      [gmap string _]; a [list] is a [list].
    - Instance attributes that a method mutates ([self.graph],
      [self.deadlines]) are threaded explicitly: such a method takes the
      instance and returns the value it returns together with the instance
      after the call.
    - [verbose] only drives [print]; printing is not modelled. *)

From stdpp Require Import gmap strings list fin_maps.
From Stdlib Require Import ZArith.

Open Scope Z_scope.

(** ** Python builtins used by the sources *)

Module Py.

(** [needle in haystack] for two [str]. *)
Fixpoint str_in (needle hay : string) : bool :=
  String.prefix needle hay ||
  match hay with
  | EmptyString => false
  | String _ rest => str_in needle rest
  end.

(** [x in l] for a list of [str]. *)
Definition list_in (x : string) (l : list string) : bool :=
  bool_decide (x ∈ l).

(** [k in d] for a dict. *)
Definition dict_in {V} (k : string) (d : gmap string V) : bool :=
  bool_decide (is_Some (d !! k)).

(** [bool(l)] for a list. *)
Definition truthy {A} (l : list A) : bool :=
  match l with [] => false | _ => true end.

(** The double-quote character, as a one-character string. *)
Definition dquote : string := String (Ascii.ascii_of_nat 34) EmptyString.

(** [dict.update] on one key of an attribute dict: [None] is an absent key. *)
Definition upd {A} (old new : option A) : option A :=
  match new with Some x => Some x | None => old end.

(** What a call does: it returns a value or raises. *)
Inductive outcome (A : Type) : Type :=
  | Return (a : A)
  | Raise (msg : string).
Arguments Return {A} a.
Arguments Raise {A} msg.

(** Sequencing of calls that may raise. *)
Definition bind {A B} (x : outcome A) (f : A -> outcome B) : outcome B :=
  match x with
  | Return a => f a
  | Raise msg => Raise msg
  end.

(** [s.split(c)] for a one-character separator: the pieces between the
    occurrences of [c], so one piece more than there are occurrences. *)
Fixpoint split_char (c : Ascii.ascii) (s : string) : list string :=
  match s with
  | EmptyString => [EmptyString]
  | String a rest =>
      if Ascii.eqb a c then EmptyString :: split_char c rest
      else match split_char c rest with
           | piece :: pieces => String a piece :: pieces
           | [] => [String a EmptyString]
           end
  end.

(** The full stop. *)
Definition dot : Ascii.ascii := Ascii.ascii_of_nat 46.

End Py.

(** ** src/legal_parser.py: the article record

    Parsing is an external collaborator; the pipeline only reads the
    attributes of already constructed articles, so every attribute is an
    input here. *)

Module LegalParser.

Record LegalArticle : Type := {
  article_no : string;
  title : string;
  text : string;
  url : string;
  law : string;
  key_terms : list string;
  constraints : list string;
  references_to : list string;
  referenced_by : list string;
  critical_phrases : list string
}.

(** *** The [LegalArticle] constructor

    [str.strip] and [_extract_references] (a regular-expression search
    whose matches go through a [set], so in no fixed order) are taken as
    parameters: [strip] is [str.strip()], and [extract_references text] is
    the list [_extract_references] stores in [references_to]. *)

Section Parse.
Variable strip : string -> string.
Variable extract_references : string -> list string.

(** [_extract_constraint_phrase]: the first sentence, cut at full stops,
    that holds a prohibition phrase, stripped. *)
Definition _extract_constraint_phrase (text : string) : string :=
  let sentences := Py.split_char Py.dot text in
  match List.find (fun sentence => Py.str_in "δεν επιτρέπει" sentence
                                   || Py.str_in "δεν επιτρέπεται" sentence)
                  sentences with
  | Some sentence => strip sentence
  | None => ""
  end.

(** [_extract_references]: [self.references_to] is assigned the list of
    the distinct article numbers found. *)
Definition _extract_references (self : LegalArticle) : LegalArticle :=
  {| article_no := article_no self; title := title self; text := text self;
     url := url self; law := law self; key_terms := key_terms self;
     constraints := constraints self;
     references_to := extract_references (text self);
     referenced_by := referenced_by self;
     critical_phrases := critical_phrases self |}.

(** [_parse]: appends to the lists of the article, then extracts the
    references. *)
Definition _parse (self : LegalArticle) : LegalArticle :=
  let prohibited :=
    Py.str_in "δεν επιτρέπει" (text self) || Py.str_in "δεν επιτρέπεται" (text self) in
  let constraints :=
    if prohibited then constraints self ++ ["prohibition"] else constraints self in
  let critical_phrases :=
    if prohibited
    then critical_phrases self ++ [_extract_constraint_phrase (text self)]
    else critical_phrases self in
  let key_terms := key_terms self in
  let key_terms :=
    if Py.str_in "τροποποίηση" (text self)
    then key_terms ++ ["modification"] else key_terms in
  let key_terms :=
    if Py.str_in "εξέταση" (text self) || Py.str_in "εξέτασης" (text self)
    then key_terms ++ ["examination"] else key_terms in
  let key_terms :=
    if Py.str_in "απαλλαγή" (text self)
    then key_terms ++ ["discharge"] else key_terms in
  let key_terms :=
    if Py.str_in "μέρισμα" (text self)
    then key_terms ++ ["dividend"] else key_terms in
  let key_terms :=
    if Py.str_in "προθεσμία" (text self)
    then key_terms ++ ["deadline"] else key_terms in
  let key_terms :=
    if Py.str_in "αποκατάσταση" (text self)
    then key_terms ++ ["rehabilitation"] else key_terms in
  _extract_references
    {| article_no := article_no self; title := title self; text := text self;
       url := url self; law := law self; key_terms := key_terms;
       constraints := constraints;
       references_to := references_to self;
       referenced_by := referenced_by self;
       critical_phrases := critical_phrases |}.

(** [__init__] of [LegalArticle]: [article_data] is the JSON object of the
    article, read with [.get(key, '')]. *)
Definition LegalArticle_init (article_data : gmap string string) : LegalArticle :=
  let get k := default "" (article_data !! k) in
  _parse
    {| article_no := get "articleNo";
       title := get "articleTitle";
       text := get "articleText";
       url := get "articleUrl";
       law := get "lawTitle";
       key_terms := [];
       constraints := [];
       references_to := [];
       referenced_by := [];
       critical_phrases := [] |}.

End Parse.

(** *** The [LegalParser] class, on its [articles] dict *)

(** [articles[ref].referenced_by.append(article_no)] *)
Definition add_referenced_by (article_no : string) (a : LegalArticle)
  : LegalArticle :=
  {| article_no := LegalParser.article_no a; title := title a; text := text a;
     url := url a; law := law a; key_terms := key_terms a;
     constraints := constraints a; references_to := references_to a;
     referenced_by := referenced_by a ++ [article_no];
     critical_phrases := critical_phrases a |}.

(** Inner loop of [_build_cross_references]: the references of one
    article. *)
Definition back_fill_of (article_no : string) (refs : list string)
    (arts : gmap string LegalArticle) : gmap string LegalArticle :=
  foldl (fun arts ref =>
           if Py.dict_in ref arts
           then alter (add_referenced_by article_no) ref arts
           else arts)
        arts refs.

(** [_build_cross_references]: the loop runs over the articles as loaded;
    only [referenced_by] changes, so the references read are those of the
    dict before the call. *)
Definition _build_cross_references (arts : gmap string LegalArticle)
  : gmap string LegalArticle :=
  foldl (fun acc '(article_no, article) =>
           back_fill_of article_no (references_to article) acc)
        arts (map_to_list arts).

(** [get_article] *)
Definition get_article (arts : gmap string LegalArticle) (article_no : string)
  : option LegalArticle :=
  arts !! article_no.

End LegalParser.

(** ** networkx.DiGraph, as far as the analyzers use it

    A directed graph without parallel edges: a node dict and, per ordered
    pair of nodes, at most one edge, each carrying an attribute dict.
    Adding a node or an edge that exists updates its attribute dict. *)

Module NX.

(** Node attributes set by [build_graph]; [None] is an absent key. *)
Record NodeData : Type := {
  node_title : option string;
  node_has_constraints : option bool;
  node_key_terms : option (list string)
}.

(** Edge attributes set by the analyzer; [None] is an absent key. *)
Record EdgeData : Type := {
  relationship : option string;
  critical : option bool
}.

Definition no_node_data : NodeData :=
  {| node_title := None; node_has_constraints := None; node_key_terms := None |}.

Definition no_edge_data : EdgeData :=
  {| relationship := None; critical := None |}.

Definition node_update (old new : NodeData) : NodeData :=
  {| node_title := Py.upd (node_title old) (node_title new);
     node_has_constraints := Py.upd (node_has_constraints old) (node_has_constraints new);
     node_key_terms := Py.upd (node_key_terms old) (node_key_terms new) |}.

Definition edge_update (old new : EdgeData) : EdgeData :=
  {| relationship := Py.upd (relationship old) (relationship new);
     critical := Py.upd (critical old) (critical new) |}.

Record DiGraph : Type := {
  _node : gmap string NodeData;
  _adj : gmap (string * string) EdgeData
}.

(** [nx.DiGraph()] *)
Definition empty : DiGraph := {| _node := ∅; _adj := ∅ |}.

(** [n in G] *)
Definition has_node (G : DiGraph) (n : string) : bool :=
  bool_decide (is_Some (_node G !! n)).

(** [G.has_edge(u, v)] *)
Definition has_edge (G : DiGraph) (u v : string) : bool :=
  bool_decide (is_Some (_adj G !! (u, v))).

(** The node dict after making sure [n] is a node. *)
Definition ensure_node (n : string) (nodes : gmap string NodeData)
  : gmap string NodeData :=
  match nodes !! n with
  | Some _ => nodes
  | None => <[n := no_node_data]> nodes
  end.

(** [G.add_node(n, **attr)] *)
Definition add_node (n : string) (attr : NodeData) (G : DiGraph) : DiGraph :=
  {| _node := <[n := node_update (default no_node_data (_node G !! n)) attr]> (_node G);
     _adj := _adj G |}.

(** [G.add_edge(u, v, **attr)] *)
Definition add_edge (u v : string) (attr : EdgeData) (G : DiGraph) : DiGraph :=
  {| _node := ensure_node v (ensure_node u (_node G));
     _adj := <[(u, v) := edge_update (default no_edge_data (_adj G !! (u, v))) attr]>
               (_adj G) |}.

(** [G.edges(data=True)], as a list. *)
Definition edges (G : DiGraph) : list (string * string * EdgeData) :=
  map_to_list (_adj G).

(** [G.number_of_edges()] *)
Definition number_of_edges (G : DiGraph) : nat := size (_adj G).

(** [G.successors(n)] and [G.predecessors(n)], as lists: networkx raises
    for a node that is not in the graph.  The lists are in the order of the
    edge dict here, in insertion order in networkx. *)
Definition successors (G : DiGraph) (n : string) : Py.outcome (list string) :=
  if has_node G n
  then Py.Return ((fun e : string * string * EdgeData => e.1.2)
                    <$> filter (fun e : string * string * EdgeData => e.1.1 = n)
                               (edges G))
  else Py.Raise "The node is not in the digraph.".

Definition predecessors (G : DiGraph) (n : string) : Py.outcome (list string) :=
  if has_node G n
  then Py.Return ((fun e : string * string * EdgeData => e.1.1)
                    <$> filter (fun e : string * string * EdgeData => e.1.2 = n)
                               (edges G))
  else Py.Raise "The node is not in the digraph.".

End NX.

(** ** src/cross_reference_analyzer.py *)

Module CrossReferenceAnalyzer.
Import LegalParser NX.

Record instance : Type := {
  articles : gmap string LegalArticle;
  verbose : bool;
  graph : DiGraph;
  chains : list (string * list string)
}.

(** [__init__]: two arguments, the articles and the verbose flag; the graph
    starts empty.  There is no curated-edge argument. *)
Definition __init__ (articles : gmap string LegalArticle) (verbose : bool)
  : instance :=
  {| articles := articles; verbose := verbose; graph := NX.empty; chains := [] |}.

(** The call [CrossReferenceAnalyzer(articles, verbose)]: the body of
    [__init__] has no [raise] and calls nothing that raises. *)
Definition construct (articles : gmap string LegalArticle) (verbose : bool)
  : Py.outcome instance :=
  Py.Return (__init__ articles verbose).

Definition set_graph (self : instance) (G : DiGraph) : instance :=
  {| articles := articles self; verbose := verbose self;
     graph := G; chains := chains self |}.

(** The keyword arguments of the [add_node] call of [build_graph]. *)
Definition node_attrs (article : LegalArticle) : NodeData :=
  {| node_title := Some (title article);
     node_has_constraints := Some (Py.truthy (constraints article));
     node_key_terms := Some (key_terms article) |}.

(** [relationship='references'] *)
Definition references_attrs : EdgeData :=
  {| relationship := Some "references"; critical := None |}.

(** [relationship=kind, critical=True] *)
Definition critical_attrs (kind : string) : EdgeData :=
  {| relationship := Some kind; critical := Some true |}.

(** First loop of [build_graph]: one node per article. *)
Definition add_article_nodes (arts : gmap string LegalArticle) (G : DiGraph)
  : DiGraph :=
  foldl (λ G '(article_no, article), add_node article_no (node_attrs article) G)
        G (map_to_list arts).

(** Inner loop of the second loop: the references of one article. *)
Definition add_reference_edges_of (arts : gmap string LegalArticle)
    (article_no : string) (refs : list string) (G : DiGraph) : DiGraph :=
  foldl (λ G ref,
           if Py.dict_in ref arts
           then add_edge article_no ref references_attrs G
           else G)
        G refs.

(** Second loop of [build_graph]: the [references] edges. *)
Definition add_reference_edges (arts : gmap string LegalArticle) (G : DiGraph)
  : DiGraph :=
  foldl (λ G '(article_no, article),
           add_reference_edges_of arts article_no (references_to article) G)
        G (map_to_list arts).

(** [_add_interpretation_edges]: four hard-coded edges, each added when both
    of its end points are nodes. *)
Definition _add_interpretation_edges (G : DiGraph) : DiGraph :=
  let G := if has_node G "103" && has_node G "143"
           then add_edge "103" "143" (critical_attrs "enables") G else G in
  let G := if has_node G "143" && has_node G "58"
           then add_edge "143" "58" (critical_attrs "modifies") G else G in
  let G := if has_node G "27" && has_node G "16"
           then add_edge "27" "16" (critical_attrs "requires") G else G in
  let G := if has_node G "28" && has_node G "27"
           then add_edge "28" "27" (critical_attrs "alternative") G else G in
  G.

(** The graph after one run of the body of [build_graph] on graph [G]. *)
Definition build_graph_on (arts : gmap string LegalArticle) (G : DiGraph)
  : DiGraph :=
  _add_interpretation_edges (add_reference_edges arts (add_article_nodes arts G)).

(** [build_graph]: works on [self.graph] and returns it. *)
Definition build_graph (self : instance) : DiGraph * instance :=
  let G := build_graph_on (articles self) (graph self) in
  (G, set_graph self G).

(** The dicts appended by [detect_conflicts]. *)
Record Conflict : Type := {
  conflict_type : string;
  conflict_articles : list string;
  conflict_description : string;
  conflict_severity : string;
  conflict_critical : bool
}.

Definition prohibition_vs_modification : Conflict :=
  {| conflict_type := "prohibition_vs_modification";
     conflict_articles := ["103"; "143"];
     conflict_description :=
       "Άρθρο 103(2) απαγορεύει τροποποίηση εξέτασης, " +:+
       "αλλά Κανονισμός 143 τροποποιεί προθεσμίες";
     conflict_severity := "high";
     conflict_critical := true |}.

Definition timeline_inconsistency : Conflict :=
  {| conflict_type := "timeline_inconsistency";
     conflict_articles := ["143"; "28"];
     conflict_description := "Κανονισμός 143: 6 μήνες vs Άρθρο 28: 4 έτη";
     conflict_severity := "medium";
     conflict_critical := true |}.

(** [detect_conflicts]: reads [self.articles] only. *)
Definition detect_conflicts (self : instance) : list Conflict :=
  let conflicts := [] in
  let conflicts :=
    match articles self !! "103", articles self !! "143" with
    | Some art103, Some art143 =>
        if Py.list_in "prohibition" (constraints art103)
           && Py.list_in "modification" (key_terms art143)
        then conflicts ++ [prohibition_vs_modification]
        else conflicts
    | _, _ => conflicts
    end in
  let conflicts :=
    if Py.dict_in "143" (articles self) && Py.dict_in "28" (articles self)
    then conflicts ++ [timeline_inconsistency]
    else conflicts in
  conflicts.

(** [count_relationships] *)
Definition count_relationships (self : instance) : nat :=
  number_of_edges (graph self).

Definition append_chain (self : instance) (entry : string * list string)
  : instance :=
  {| articles := articles self; verbose := verbose self;
     graph := graph self; chains := chains self ++ [entry] |}.

(** [find_interpretation_chain]: the chain, and the analyzer with the chain
    appended to [self.chains]. *)
Definition find_interpretation_chain (self : instance)
  : list string * instance :=
  let chain := [] in
  let chain := if has_node (graph self) "103" then chain ++ ["103"] else chain in
  let chain := if has_node (graph self) "143" then chain ++ ["143"] else chain in
  let chain := if has_node (graph self) "58" then chain ++ ["58"] else chain in
  let chain := if has_node (graph self) "27" then chain ++ ["27"] else chain in
  let chain := if has_node (graph self) "28" then chain ++ ["28"] else chain in
  let chain := if has_node (graph self) "16" then chain ++ ["16"] else chain in
  (chain, append_chain self ("interpretation_chain", chain)).

(** The dict [analyze_article_103_constraint] returns. *)
Record ConstraintAnalysis : Type := {
  analysis_article : string;
  constraint_text : string;
  affects : list string;
  interpretation : string;
  ambiguity_level : string
}.

(** [analyze_article_103_constraint] *)
Definition analyze_article_103_constraint (self : instance) : ConstraintAnalysis :=
  match articles self !! "103" with
  | None =>
      {| analysis_article := "103"; constraint_text := ""; affects := [];
         interpretation := ""; ambiguity_level := "" |}
  | Some art103 =>
      let constraint_text :=
        default "" (List.find (fun phrase => Py.str_in "δεν επιτρέπει" phrase)
                              (critical_phrases art103)) in
      let '(interpretation, ambiguity_level) :=
        match articles self !! "143" with
        | Some art143 =>
            if Py.list_in "58" (references_to art143)
            then ("Κανονισμός 143 τροποποιεί προθεσμία μερίσματος (Άρθρο 58), " +:+
                  "όχι απευθείας την εξέταση.  Ερώτημα: Αποτελεί αυτό έμμεση τροποποίηση;",
                  "high")
            else ("", "")
        | None => ("", "")
        end in
      {| analysis_article := "103";
         constraint_text := constraint_text;
         affects := ["examination_provisions"; "discharge_provisions"];
         interpretation := interpretation;
         ambiguity_level := ambiguity_level |}
  end.

(** The dict [get_article_dependencies] returns. *)
Record Dependencies : Type := {
  depends_on : list string;
  depended_by : list string
}.

(** [get_article_dependencies]: the graph is asked for the neighbours of
    [article_no] only when it is a node. *)
Definition get_article_dependencies (self : instance) (article_no : string)
  : Py.outcome Dependencies :=
  if has_node (graph self) article_no
  then Py.bind (successors (graph self) article_no) (fun succ =>
       Py.bind (predecessors (graph self) article_no) (fun pred =>
       Py.Return {| depends_on := succ; depended_by := pred |}))
  else Py.Return {| depends_on := []; depended_by := [] |}.

End CrossReferenceAnalyzer.

(** ** src/logic_validator.py *)

Module LogicValidator.
Import LegalParser NX.

(** The validator.  Its [validation_results] attribute, an empty dict that
    no method reads or writes, is left out. *)
Record instance : Type := {
  articles : gmap string LegalArticle;
  graph : DiGraph;
  verbose : bool
}.

Definition __init__ (articles : gmap string LegalArticle)
    (reference_graph : DiGraph) (verbose : bool) : instance :=
  {| articles := articles; graph := reference_graph; verbose := verbose |}.

(** The dict every check returns; [ambiguity_level] is a key of the
    modification-equivalence check only. *)
Record Check : Type := {
  name : string;
  description : string;
  points_possible : Z;
  points_awarded : Z;
  supports_interpretation : bool;
  evidence : list string;
  analysis : string;
  ambiguity_level : option string
}.

(** The first phrase the loop of [_check_prohibition_exists] stops at. *)
Definition prohibition_phrase (phrases : list string) : option string :=
  List.find (λ phrase, Py.str_in "δεν επιτρέπει την τροποποίηση" phrase
                       && Py.str_in "εξέταση" phrase) phrases.

(** [_check_prohibition_exists] *)
Definition _check_prohibition_exists (self : instance) : Check :=
  let check points supports ev an :=
    {| name := "article_103_prohibition";
       description := "Άρθρο 103(2): Απαγόρευση τροποποίησης διατάξεων εξέτασης";
       points_possible := 8;
       points_awarded := points;
       supports_interpretation := supports;
       evidence := ev;
       analysis := an;
       ambiguity_level := None |} in
  match articles self !! "103" with
  | None => check 0 false [] "Άρθρο 103 δεν βρέθηκε"
  | Some art103 =>
      match prohibition_phrase (critical_phrases art103) with
      | Some constraint_text =>
          check 8 true
            ["Κείμενο: " +:+ Py.dquote +:+ constraint_text +:+ Py.dquote]
            ("Το Άρθρο 103(2) απαγορεύει ρητά την τροποποίηση διατάξεων που αφορούν " +:+
             "την εξέταση του χρεώστη. Αυτό αποτελεί ισχυρή υποστήριξη ότι η διαδικασία " +:+
             "εξέτασης δεν μπορεί να αλλοιωθεί σε συνοπτική διαχείριση.")
      | None => check 3 false [] "Η απαγόρευση υπάρχει αλλά είναι ασαφής"
      end
  end.

(** [_check_regulation_143_modifications] *)
Definition _check_regulation_143_modifications (self : instance) : Check :=
  let check points supports ev an :=
    {| name := "regulation_143_modifications";
       description := "Κανονισμός 143: Τροποποίηση προθεσμίας σε 6 μήνες";
       points_possible := 7;
       points_awarded := points;
       supports_interpretation := supports;
       evidence := ev;
       analysis := an;
       ambiguity_level := None |} in
  match articles self !! "143" with
  | None => check 0 false [] "Κανονισμός 143 δεν βρέθηκε"
  | Some art143 =>
      let six_months_found := Py.str_in "έξι μήνες" (text art143) in
      let single_dividend_found := Py.str_in "ένα μόνο μέρισμα" (text art143) in
      let modifies_58 := Py.list_in "58" (references_to art143) in
      let points := 0 in
      let ev := [] in
      let '(points, ev) :=
        if six_months_found
        then (points + 3, ev ++ ["Παράταση προθεσμίας σε 6 μήνες (Κανονισμός 143(i))"])
        else (points, ev) in
      let '(points, ev) :=
        if single_dividend_found
        then (points + 2, ev ++ ["Διανομή σε ένα μόνο μέρισμα (Κανονισμός 143(ii))"])
        else (points, ev) in
      let '(points, ev) :=
        if modifies_58
        then (points + 2, ev ++ ["Αναφέρεται στο Άρθρο 58(2)"])
        else (points, ev) in
      check points (bool_decide (5 ≤ points)) ev
        ("Ο Κανονισμός 143 επιβεβαιώνεται ότι:  " +:+
         (if six_months_found then "(1) παρατείνει την προθεσμία σε 6 μήνες, " else "") +:+
         (if single_dividend_found then "(2) προβλέπει ένα μόνο μέρισμα, " else "") +:+
         (if modifies_58 then "(3) τροποποιεί το Άρθρο 58(2)." else ""))
  end.

Definition supporting_logic : list string :=
  [ "Άρθρο 27 απαιτεί ολοκλήρωση εξέτασης πριν την αποκατάσταση";
    "Κανονισμός 143 ορίζει 6μηνη προθεσμία για μέρισμα";
    "Ένα μόνο μέρισμα σημαίνει ταχεία ολοκλήρωση";
    "Αν η εξέταση δεν μπορεί να τροποποιηθεί, πρέπει να ολοκληρωθεί εντός 6 μηνών" ].

Definition contradicting_logic : list string :=
  [ "Άρθρο 103(2) αναφέρεται σε 'διατάξεις εξέτασης' (examination provisions)";
    "Κανονισμός 143 αναφέρεται σε 'προθεσμία μερίσματος' (dividend deadline)";
    "Το μέρισμα είναι οικονομική διαδικασία, όχι διαδικασία εξέτασης";
    "Άρθρο 28 δίνει 4ετή προθεσμία, όχι 6μηνη" ].

(** [_check_modification_equivalence]: reads neither the articles nor the
    graph. *)
Definition _check_modification_equivalence (self : instance) : Check :=
  {| name := "modification_equivalence";
     description := "Τροποποίηση χρόνου μερίσματος = Τροποποίηση εξέτασης;";
     points_possible := 10;
     points_awarded := 4;
     supports_interpretation := false;
     evidence := supporting_logic ++ contradicting_logic;
     analysis :=
       "ΚΡΙΣΙΜΗ ΑΣΑΦΕΙΑ: Υπάρχει νομική διάκριση μεταξύ:
" +:+ "  (α) 'διατάξεων που αφορούν την εξέταση' (Άρθρο 103(2))
" +:+ "  (β) 'προθεσμίας διανομής μερίσματος' (Κανονισμός 143(i))

" +:+ "Η ερμηνεία προϋποθέτει ότι η τροποποίηση της προθεσμίας μερίσματος " +:+
       "αποτελεί έμμεση τροποποίηση της διαδικασίας εξέτασης.  Αυτό ΔΥΝΑΤΟΝ " +:+
       "να είναι αληθές αλλά ΔΕΝ είναι ρητά καθορισμένο στο νομοθετικό κείμενο.

" +:+ "Το Άρθρο 28 προβλέπει προθεσμία 4 ετών για αποκατάσταση, όχι 6 μηνών, " +:+
       "γεγονός που υποδηλώνει ότι οι δύο χρονοδιαγράμματα μπορεί να είναι ανεξάρτητα.";
     ambiguity_level := Some "high" |}.

(** [_check_single_dividend_implication] *)
Definition _check_single_dividend_implication (self : instance) : Check :=
  let check points ev an :=
    {| name := "single_dividend_implication";
       description := "Ένα μόνο μέρισμα → Υποχρέωση αποκατάστασης;";
       points_possible := 5;
       points_awarded := points;
       supports_interpretation := false;
       evidence := ev;
       analysis := an;
       ambiguity_level := None |} in
  match articles self !! "143" with
  | None => check 0 [] ""
  | Some art143 =>
      if Py.str_in "ένα μόνο μέρισμα" (text art143)
      then check 2
             ["Κανονισμός 143(ii): Διανομή σε ένα μόνο μέρισμα κατά την ρευστοποίηση"]
             ("Η διανομή σε ένα μόνο μέρισμα υποδηλώνει ταχεία ολοκλήρωση της " +:+
              "ρευστοποίησης. Ωστόσο, αυτό ΔΕΝ δημιουργεί αυτόματα υποχρέωση " +:+
              "αποκατάστασης του χρεώστη.  Τα Άρθρα 27-28 διέπουν την αποκατάσταση " +:+
              "και δεν αναφέρουν ρητή σύνδεση με το χρονοδιάγραμμα μερίσματος.")
      else check 0 [] "Δεν βρέθηκε αναφορά σε ένα μόνο μέρισμα"
  end.

(** The dict [validate_interpretation] returns.  Its [summary] key is left
    out: it is text formatted from the other keys through a floating-point
    percentage. *)
Record Results : Type := {
  score : Z;
  max_score : Z;
  checks : list Check;
  supporting_factors : list string;
  contradicting_factors : list string
}.

(** [validate_interpretation] *)
Definition validate_interpretation (self : instance) : Results :=
  let check1 := _check_prohibition_exists self in
  let check2 := _check_regulation_143_modifications self in
  let check3 := _check_modification_equivalence self in
  let check4 := _check_single_dividend_implication self in
  let checks := [check1; check2; check3; check4] in
  {| score := 0 + points_awarded check1 + points_awarded check2
              + points_awarded check3 + points_awarded check4;
     max_score := 30;
     checks := checks;
     supporting_factors :=
       description <$> filter (λ c, supports_interpretation c = true) checks;
     contradicting_factors :=
       description <$> filter (λ c, supports_interpretation c = false) checks |}.

(** The dict [validate_article_chain] returns. *)
Record ChainValidation : Type := {
  valid : bool;
  breaks : list (string * string);
  chain : list string
}.

(** [validate_article_chain]: only the links 103-143 and 143-58 are
    checked. *)
Definition validate_article_chain (self : instance) : ChainValidation :=
  let breaks := [] in
  let breaks :=
    if has_node (graph self) "103" && has_node (graph self) "143"
    then (if negb (has_edge (graph self) "103" "143")
          then breaks ++ [("103", "143")] else breaks)
    else breaks in
  let breaks :=
    if has_node (graph self) "143" && has_node (graph self) "58"
    then (if negb (has_edge (graph self) "143" "58")
          then breaks ++ [("143", "58")] else breaks)
    else breaks in
  {| valid := bool_decide (length breaks = 0%nat);
     breaks := breaks;
     chain := ["103"; "143"; "58"; "27"; "28"; "16"] |}.

End LogicValidator.

(** ** src/timeline_analyzer.py *)

Module TimelineAnalyzer.
Import LegalParser.

(** The [Deadline] dataclass. *)
Record Deadline : Type := {
  article : string;
  description : string;
  duration : string;
  duration_days : Z;
  trigger_event : string;
  mandatory : bool;
  can_extend : bool;
  extension_conditions : option string
}.

(** The analyzer: [deadlines] is the list [_extract_deadlines] appends to. *)
Record instance : Type := {
  articles : gmap string LegalArticle;
  verbose : bool;
  deadlines : list Deadline
}.

Definition __init__ (articles : gmap string LegalArticle) (verbose : bool)
  : instance :=
  {| articles := articles; verbose := verbose; deadlines := [] |}.

(** [self.deadlines.append(d)] *)
Definition append_deadline (d : Deadline) (self : instance) : instance :=
  {| articles := articles self; verbose := verbose self;
     deadlines := deadlines self ++ [d] |}.

Definition deadline_58_2 : Deadline :=
  {| article := "58(2)";
     description := "Πρώτο μέρισμα";
     duration := "4 μήνες";
     duration_days := 120;
     trigger_event := "Πέρας πρώτης συνέλευσης πιστωτών";
     mandatory := true;
     can_extend := true;
     extension_conditions := Some "Επαρκής λόγος προς εποπτική επιτροπή" |}.

Definition deadline_143_i : Deadline :=
  {| article := "143(i)";
     description := "Πρώτο μέρισμα (συνοπτική διαχείριση)";
     duration := "6 μήνες";
     duration_days := 180;
     trigger_event := "Πέρας πρώτης συνέλευσης πιστωτών";
     mandatory := false;
     can_extend := false;
     extension_conditions := Some "Κατά την κρίση Επίσημου Παραλήπτη" |}.

Definition deadline_28 : Deadline :=
  {| article := "28";
     description := "Αίτηση αποκατάστασης από Επίσημο Παραλήπτη";
     duration := "4 έτη";
     duration_days := 1460;
     trigger_event := "Συμπλήρωση δημόσιας εξέτασης";
     mandatory := true;
     can_extend := false;
     extension_conditions := None |}.

(** [_extract_deadlines]: appends to [self.deadlines]; the list is not
    cleared first. *)
Definition _extract_deadlines (self : instance) : instance :=
  let self :=
    match articles self !! "58" with
    | Some art58 =>
        if Py.str_in "τέσσερις μήνες" (text art58)
        then append_deadline deadline_58_2 self else self
    | None => self
    end in
  let self :=
    match articles self !! "143" with
    | Some art143 =>
        if Py.str_in "έξι μήνες" (text art143)
        then append_deadline deadline_143_i self else self
    | None => self
    end in
  let self :=
    match articles self !! "28" with
    | Some art28 =>
        if Py.str_in "τέσσερα χρόνια" (text art28)
           || Py.str_in "τέσσερις ετών" (text art28)
        then append_deadline deadline_28 self else self
    | None => self
    end in
  self.

(** [_score_deadline_clarity] *)
Definition _score_deadline_clarity (self : instance) : Z :=
  let score := 0 in
  let articles_with_deadlines := article <$> deadlines self in
  let score := if Py.list_in "58(2)" articles_with_deadlines then score + 2 else score in
  let score := if Py.list_in "143(i)" articles_with_deadlines then score + 2 else score in
  let score := if Py.list_in "28" articles_with_deadlines then score + 1 else score in
  Z.min score 5.

(** [next((d for d in self.deadlines if d.article == a), None)] *)
Definition first_deadline (a : string) (self : instance) : option Deadline :=
  List.find (λ d, bool_decide (article d = a)) (deadlines self).

(** The dicts appended by [_check_timeline_consistency]. *)
Record Conflict : Type := {
  conflict_type : string;
  conflict_severity : string;
  conflict_articles : list string;
  conflict_description : string;
  conflict_analysis : string
}.

Definition timeline_mismatch (six_month_deadline four_year_deadline : Deadline)
  : Conflict :=
  {| conflict_type := "timeline_mismatch";
     conflict_severity := "high";
     conflict_articles := ["143(i)"; "28"];
     conflict_description :=
       "Κανονισμός 143: " +:+ duration six_month_deadline +:+ " για μέρισμα vs " +:+
       "Άρθρο 28: " +:+ duration four_year_deadline +:+ " για αποκατάσταση";
     conflict_analysis :=
       "Η ερμηνεία προϋποθέτει ότι η 6μηνη προθεσμία μερίσματος " +:+
       "δημιουργεί υποχρέωση αποκατάστασης, αλλά το Άρθρο 28 δίνει " +:+
       "4 έτη στον Επίσημο Παραλήπτη. Αυτό υποδηλώνει ότι τα δύο " +:+
       "χρονοδιαγράμματα μπορεί να είναι ανεξάρτητα." |}.

Definition implicit_connection : Conflict :=
  {| conflict_type := "implicit_connection";
     conflict_severity := "medium";
     conflict_articles := ["143(i)"; "27"];
     conflict_description :=
       "Δεν υπάρχει ρητή σύνδεση μεταξύ της 6μηνης προθεσμίας " +:+
       "μερίσματος και της υποχρέωσης αποκατάστασης";
     conflict_analysis :=
       "Η ερμηνεία βασίζεται σε σιωπηρή λογική:  6 μήνες → ένα μέρισμα → " +:+
       "ολοκλήρωση → αποκατάσταση. Αυτή η αλυσίδα δεν είναι νομικά " +:+
       "καθορισμένη." |}.

(** [_check_timeline_consistency] *)
Definition _check_timeline_consistency (self : instance) : Z * list Conflict :=
  let conflicts := [] in
  let score := 8 in
  let six_month_deadline := first_deadline "143(i)" self in
  let four_year_deadline := first_deadline "28" self in
  let '(score, conflicts) :=
    match six_month_deadline, four_year_deadline with
    | Some d6, Some d4 => (score - 5, conflicts ++ [timeline_mismatch d6 d4])
    | _, _ => (score, conflicts)
    end in
  let '(score, conflicts) :=
    match six_month_deadline with
    | Some _ => (score - 2, conflicts ++ [implicit_connection])
    | None => (score, conflicts)
    end in
  (Z.max score 0, conflicts).

(** [_score_implication_strength] *)
Definition _score_implication_strength (self : instance) : Z :=
  let score := 0 in
  match first_deadline "143(i)" self with
  | None => 0
  | Some six_month =>
      let score := if negb (mandatory six_month) then score + 0 else score + 3 in
      let score :=
        match articles self !! "143" with
        | Some art143 =>
            if Py.str_in "ένα μόνο μέρισμα" (text art143) then score + 2 else score
        | None => score
        end in
      let score :=
        match articles self !! "27" with
        | Some art27 =>
            if Py.str_in "ολοκληρωθεί η δημόσια εξέταση" (text art27)
            then score + 1 else score
        | None => score
        end in
      let score := if Py.dict_in "28" (articles self) then score - 1 else score in
      Z.max score 0
  end.

(** [_generate_critical_finding]: a constant text. *)
Definition _generate_critical_finding (self : instance) : string :=
  "ΚΡΙΣΙΜΟ ΕΥΡΗΜΑ ΧΡΟΝΟΔΙΑΓΡΑΜΜΑΤΟΣ:

" +:+ "Υπάρχει ασυμφωνία μεταξύ δύο χρονικών προθεσμιών:

" +:+ "1. ΚΑΝΟΝΙΣΜΟΣ 143(i): 6 μήνες για διανομή πρώτου μερίσματος
" +:+ "   • Διακριτική ευχέρεια Επίσημου Παραλήπτη
" +:+ "   • Αφορά ρευστοποίηση περιουσίας και διανομή
" +:+ "   • Συνδυάζεται με 'ένα μόνο μέρισμα'

" +:+ "2. ΑΡΘΡΟ 28: 4 έτη για αίτηση αποκατάστασης
" +:+ "   • Υποχρεωτική προθεσμία για Επίσημο Παραλήπτη
" +:+ "   • Αφορά αποκατάσταση πτωχεύσαντα
" +:+ "   • Μετράται από συμπλήρωση δημόσιας εξέτασης

" +:+ "Η ερμηνεία υποστηρίζει ότι η 6μηνη προθεσμία δημιουργεί υποχρέωση
" +:+ "άμεσης αποκατάστασης, αλλά το Άρθρο 28 δίνει 4ετή προθεσμία.

" +:+ "ΕΡΩΤΗΜΑ: Τροποποιεί ο Κανονισμός 143 σιωπηρά το Άρθρο 28, ή είναι
" +:+ "τα δύο χρονοδιαγράμματα ανεξάρτητα (μέρισμα vs αποκατάσταση);".

(** The entries of the timeline chart: [article] and [type] are absent on
    the critical path. *)
Record ChartEvent : Type := {
  day : Z;
  event : string;
  event_article : option string;
  event_type : option string
}.

Record Chart : Type := {
  events : list ChartEvent;
  critical_path : list ChartEvent
}.

(** [_build_timeline_chart]: a constant chart. *)
Definition _build_timeline_chart (self : instance) : Chart :=
  let ev d e a t :=
    {| day := d; event := e; event_article := Some a; event_type := Some t |} in
  let step d e :=
    {| day := d; event := e; event_article := None; event_type := None |} in
  {| events :=
       [ ev 0 "Κήρυξη σε πτώχευση" "103" "start";
         ev 30 "Πρώτη συνέλευση πιστωτών" "58" "trigger";
         ev 150 "Προθεσμία πρώτου μερίσματος (κανονική)" "58(2)" "deadline";
         ev 210 "Προθεσμία πρώτου μερίσματος (συνοπτική)" "143(i)" "deadline_critical";
         ev 1490 "Προθεσμία αίτησης αποκατάστασης" "28" "deadline" ];
     critical_path :=
       [ step 0 "Κήρυξη πτώχευσης";
         step 30 "Συνέλευση πιστωτών";
         step 210 "Διανομή μερίσματος";
         step 210 "ΥΠΟΤΙΘΕΜΕΝΗ αποκατάσταση (σύμφωνα με ερμηνεία)" ] |}.

(** [_deadline_to_dict]: the dict has the keys of the dataclass, so the
    same record type holds it. *)
Definition _deadline_to_dict (deadline : Deadline) : Deadline :=
  {| article := article deadline;
     description := description deadline;
     duration := duration deadline;
     duration_days := duration_days deadline;
     trigger_event := trigger_event deadline;
     mandatory := mandatory deadline;
     can_extend := can_extend deadline;
     extension_conditions := extension_conditions deadline |}.

Record ScoreBreakdown : Type := {
  deadline_clarity : Z;
  consistency : Z;
  implication_strength : Z
}.

(** The dict [analyze_deadlines] returns. *)
Record Results : Type := {
  score : Z;
  max_score : Z;
  result_deadlines : list Deadline;
  conflicts : list Conflict;
  timeline_chart : Chart;
  critical_finding : string;
  score_breakdown : ScoreBreakdown
}.

(** [analyze_deadlines]: the returned dict and the analyzer after the
    call. *)
Definition analyze_deadlines (self : instance) : Results * instance :=
  let self := _extract_deadlines self in
  let result_deadlines := _deadline_to_dict <$> deadlines self in
  let clarity := _score_deadline_clarity self in
  let '(consistency_score, conflicts) := _check_timeline_consistency self in
  let implication := _score_implication_strength self in
  ({| score := clarity + consistency_score + implication;
      max_score := 20;
      result_deadlines := result_deadlines;
      conflicts := conflicts;
      timeline_chart := _build_timeline_chart self;
      critical_finding := _generate_critical_finding self;
      score_breakdown :=
        {| deadline_clarity := clarity;
           consistency := consistency_score;
           implication_strength := implication |} |},
   self).

(** The analyzer after [n] calls of [analyze_deadlines]. *)
Fixpoint after_calls (n : nat) (self : instance) : instance :=
  match n with
  | O => self
  | S n => after_calls n (analyze_deadlines self).2
  end.

End TimelineAnalyzer.

(** ** src/fact_checker.py *)

Module FactChecker.
Import LegalParser.

(** One record of [reasoning_results['ambiguities']]: only
    [amb.get('importance')] is read. *)
Record Ambiguity : Type := {
  importance : option string
}.

(** The dict of the reasoning collaborator: only
    [.get('ambiguities', [])] is read. *)
Record ReasoningResults : Type := {
  ambiguities : option (list Ambiguity)
}.

Record instance : Type := {
  articles : gmap string LegalArticle;
  logic_results : LogicValidator.Results;
  timeline_results : TimelineAnalyzer.Results;
  reasoning_results : ReasoningResults;
  verbose : bool
}.

Definition __init__ (articles : gmap string LegalArticle)
    (logic_results : LogicValidator.Results)
    (timeline_results : TimelineAnalyzer.Results)
    (reasoning_results : ReasoningResults) (verbose : bool) : instance :=
  {| articles := articles; logic_results := logic_results;
     timeline_results := timeline_results;
     reasoning_results := reasoning_results; verbose := verbose |}.

(** [_score_text_support] *)
Definition _score_text_support (self : instance) : Z :=
  let score := 0 in
  let score :=
    match articles self !! "103" with
    | Some art103 =>
        if Py.str_in "δεν επιτρέπει την τροποποίηση" (text art103)
           && Py.str_in "εξέταση" (text art103)
        then score + 15 else score
    | None => score
    end in
  let score :=
    match articles self !! "143" with
    | Some art143 =>
        let points := 0 in
        let points := if Py.str_in "έξι μήνες" (text art143) then points + 6 else points in
        let points := if Py.str_in "ένα μόνο μέρισμα" (text art143) then points + 6 else points in
        score + points
    | None => score
    end in
  let score :=
    match articles self !! "27" with
    | Some art27 =>
        if Py.str_in "ολοκληρωθεί η δημόσια εξέταση" (text art27)
        then score + 8 else score
    | None => score
    end in
  let score :=
    match articles self !! "58", articles self !! "143" with
    | Some _, Some art143 =>
        if Py.str_in "58" (text art143) then score + 5 else score
    | _, _ => score
    end in
  Z.min score 40.

(** [_score_precedent] *)
Definition _score_precedent (self : instance) : Z := 5.

(** [_determine_category] *)
Definition _determine_category (self : instance) (total : Z) : string :=
  if bool_decide (80 ≤ total) then "Ισχυρά Υποστηριζόμενη / Strongly Supported"
  else if bool_decide (65 ≤ total) then "Μετρίως Υποστηριζόμενη / Moderately Supported"
  else if bool_decide (50 ≤ total) then "Μερικώς Υποστηριζόμενη / Partially Supported"
  else if bool_decide (35 ≤ total) then "Αδύναμα Υποστηριζόμενη / Weakly Supported"
  else "Μη Υποστηριζόμενη / Not Supported".

(** The count [_determine_confidence] takes of the critical ambiguities. *)
Definition critical_ambiguities (self : instance) : nat :=
  length (filter (λ amb, importance amb = Some "critical")
                 (default [] (ambiguities (reasoning_results self)))).

(** [_determine_confidence], on the [total] of the score dict. *)
Definition _determine_confidence (self : instance) (total : Z) : string :=
  if bool_decide (0 < critical_ambiguities self)%nat then
    if bool_decide (70 ≤ total) then "Μέτρια Εμπιστοσύνη / Moderate Confidence"
    else "Χαμηλή Εμπιστοσύνη / Low Confidence"
  else
    if bool_decide (70 ≤ total) then "Υψηλή Εμπιστοσύνη / High Confidence"
    else if bool_decide (50 ≤ total) then "Μέτρια Εμπιστοσύνη / Moderate Confidence"
    else "Χαμηλή Εμπιστοσύνη / Low Confidence".

(** The dict [calculate_score] returns.  The keys [breakdown],
    [interpretation] and [recommendation] are left out: they are text and
    floating-point percentages formatted from the keys kept here. *)
Record Score : Type := {
  total : Z;
  max_total : Z;
  text_support : Z;
  logic_score : Z;
  timeline_score : Z;
  precedent : Z;
  category : string;
  confidence : string
}.

(** [calculate_score].  The two result records always hold a score, so
    [.get('score', 0)] is the projection. *)
Definition calculate_score (self : instance) : Score :=
  let text_support := _score_text_support self in
  let logic_score := LogicValidator.score (logic_results self) in
  let timeline_score := TimelineAnalyzer.score (timeline_results self) in
  let precedent := _score_precedent self in
  let total := text_support + logic_score + timeline_score + precedent in
  {| total := total;
     max_total := 100;
     text_support := text_support;
     logic_score := logic_score;
     timeline_score := timeline_score;
     precedent := precedent;
     category := _determine_category self total;
     confidence := _determine_confidence self total |}.

Definition recommendation_strong : string :=
  "ΣΥΣΤΑΣΗ:  Η ερμηνεία έχει αξιόλογη νομική βάση αλλά απαιτεί " +:+
  "επιβεβαίωση μέσω:
" +:+ "  1. Έρευνας νομολογίας σε παρόμοιες υποθέσεις
" +:+ "  2. Γνωμοδότησης ειδικού στο πτωχευτικό δίκαιο
" +:+ "  3. Εξέτασης της πρακτικής του Επίσημου Παραλήπτη

" +:+ "Εάν η υπόθεση προχωρήσει, υπάρχει λογική βάση για την επιχειρηματολογία.".

Definition recommendation_disputed : string :=
  "ΣΥΣΤΑΣΗ: Η ερμηνεία είναι ΑΜΦΙΛΕΓΟΜΕΝΗ.  Προτείνεται:
" +:+ "  1. Ενδελεχής έρευνα νομολογίας
" +:+ "  2. Ανάλυση νομοθετικής πρόθεσης Κανονισμού 143
" +:+ "  3. Εξέταση εναλλακτικών ερμηνειών
" +:+ "  4. Προετοιμασία για αντίλογο βάσει Άρθρου 28

" +:+ "Η επιτυχία θα εξαρτηθεί από την ποιότητα της επιχειρηματολογίας " +:+
  "και την προδιάθεση του Δικαστηρίου.".

Definition recommendation_weak : string :=
  "ΣΥΣΤΑΣΗ: Η ερμηνεία έχει ΣΗΜΑΝΤΙΚΕΣ ΑΔΥΝΑΜΙΕΣ. Προτείνεται:
" +:+ "  1. Επανεξέταση της νομικής στρατηγικής
" +:+ "  2. Εξέταση εναλλακτικών νομικών βάσεων
" +:+ "  3. Εστίαση σε ισχυρότερα επιχειρήματα

" +:+ "Η προώθηση αυτής της ερμηνείας φέρει σημαντικό κίνδυνο απόρριψης.".

(** [_generate_recommendation], on the [total] of the score dict. *)
Definition _generate_recommendation (self : instance) (total : Z) : string :=
  if bool_decide (70 ≤ total) then recommendation_strong
  else if bool_decide (50 ≤ total) then recommendation_disputed
  else recommendation_weak.

End FactChecker.

(** ** bankruptcy_factcheck.py: the analysis steps of [main]

    Loading the articles, printing and writing the report are left out.
    src/reasoning_engine.py is not part of the sources at hand, so the
    result of [ReasoningEngine(articles, reference_graph).analyze()] is the
    parameter [reasoning]. *)

Module Main.

(** Steps 2 to 6 of [main]: the final score. *)
Definition final_score (articles : gmap string LegalParser.LegalArticle)
    (reasoning : gmap string LegalParser.LegalArticle -> NX.DiGraph
                 -> FactChecker.ReasoningResults)
    (verbose : bool) : FactChecker.Score :=
  let cross_ref := CrossReferenceAnalyzer.__init__ articles verbose in
  let '(reference_graph, cross_ref) := CrossReferenceAnalyzer.build_graph cross_ref in
  let logic_validator := LogicValidator.__init__ articles reference_graph verbose in
  let logic_results := LogicValidator.validate_interpretation logic_validator in
  let timeline := TimelineAnalyzer.__init__ articles verbose in
  let '(timeline_results, timeline) := TimelineAnalyzer.analyze_deadlines timeline in
  let reasoning_results := reasoning articles reference_graph in
  let fact_checker :=
    FactChecker.__init__ articles logic_results timeline_results
      reasoning_results verbose in
  FactChecker.calculate_score fact_checker.

(** The closing line [main] prints for a total. *)
Definition closing_line (total : Z) : string :=
  if bool_decide (70 ≤ total) then "✓ Η ερμηνεία έχει ισχυρή νομική βάση"
  else if bool_decide (50 ≤ total) then "⚠ Η ερμηνεία έχει μερική νομική βάση"
  else "✗ Η ερμηνεία έχει αδύναμη νομική βάση".

End Main.

(** ** Concrete inputs used by the examples below *)

Module Examples.
Import LegalParser.

(** An article with the given number, text and outgoing references, and
    nothing extracted otherwise. *)
Definition mk_article (no txt : string) (refs : list string) : LegalArticle :=
  {| article_no := no; title := ""; text := txt; url := ""; law := "";
     key_terms := []; constraints := []; references_to := refs;
     referenced_by := []; critical_phrases := [] |}.

(** Regulation 143 with the six-month phrase, citing article 58. *)
Definition art143 : LegalArticle :=
  mk_article "143" "η προθεσμία παρατείνεται σε έξι μήνες" ["58"].

(** Article 28 with the four-year phrase. *)
Definition art28 : LegalArticle :=
  mk_article "28" "μετά από τέσσερα χρόνια" [].

(** Article 58, cited by regulation 143. *)
Definition art58 : LegalArticle :=
  mk_article "58" "μέρισμα" [].

(** Scenario B of the specification: 143 and 28 are loaded. *)
Definition scenario_B : gmap string LegalArticle :=
  <["143" := art143]> (<["28" := art28]> ∅).

(** 143 cites 58 and both are loaded. *)
Definition scenario_143_58 : gmap string LegalArticle :=
  <["143" := art143]> (<["58" := art58]> ∅).

(** Only regulation 143 is loaded. *)
Definition scenario_143 : gmap string LegalArticle :=
  <["143" := art143]> ∅.

Definition no_reasoning : FactChecker.ReasoningResults :=
  {| FactChecker.ambiguities := Some [] |}.

Definition one_critical : FactChecker.ReasoningResults :=
  {| FactChecker.ambiguities :=
       Some [ {| FactChecker.importance := Some "critical" |} ] |}.

(** A fact checker over the results of the two batteries on [arts]. *)
Definition checker (arts : gmap string LegalArticle)
    (rr : FactChecker.ReasoningResults) : FactChecker.instance :=
  FactChecker.__init__ arts
    (LogicValidator.validate_interpretation
       (LogicValidator.__init__ arts NX.empty false))
    (TimelineAnalyzer.analyze_deadlines
       (TimelineAnalyzer.__init__ arts false)).1
    rr false.

(** Article 58 with the four-month phrase. *)
Definition art58_four_months : LegalArticle :=
  mk_article "58" "εντός τέσσερις μήνες από τη συνέλευση" [].

(** Regulation 143 with the six-month and single-dividend phrases, naming
    58 in its text and citing it. *)
Definition art143_full : LegalArticle :=
  mk_article "143"
    "παράταση σε έξι μήνες και διανομή σε ένα μόνο μέρισμα κατά το άρθρο 58"
    ["58"].

(** Article 27 with the completed-examination phrase. *)
Definition art27 : LegalArticle :=
  mk_article "27" "αφού ολοκληρωθεί η δημόσια εξέταση" [].

(** Article 103 with the prohibition sentence, as the parser stores it. *)
Definition art103 : LegalArticle :=
  {| article_no := "103"; title := "";
     text := "Το άρθρο δεν επιτρέπει την τροποποίηση διατάξεων για την εξέταση.";
     url := ""; law := "";
     key_terms := ["modification"; "examination"];
     constraints := ["prohibition"];
     references_to := []; referenced_by := [];
     critical_phrases :=
       ["Το άρθρο δεν επιτρέπει την τροποποίηση διατάξεων για την εξέταση"] |}.

(** The articles on which the timeline battery scores highest. *)
Definition scenario_timeline_max : gmap string LegalArticle :=
  <["58" := art58_four_months]> (<["143" := art143_full]> (<["27" := art27]> ∅)).

(** The articles on which the whole pipeline scores highest. *)
Definition scenario_total_max : gmap string LegalArticle :=
  <["103" := art103]> scenario_timeline_max.

End Examples.

(** ** Notions used to state the properties *)

(** Every deadline the analyzer holds is one of the three hard-coded
    ones. *)
Definition known_deadlines (self : TimelineAnalyzer.instance) : Prop :=
  ∀ d, d ∈ TimelineAnalyzer.deadlines self →
       d ∈ [TimelineAnalyzer.deadline_58_2; TimelineAnalyzer.deadline_143_i;
            TimelineAnalyzer.deadline_28].

(** The attribute dict of an edge after
    [add_edge(..., relationship='references')]. *)
Definition ref_upd (o : option NX.EdgeData) : option NX.EdgeData :=
  Some (NX.edge_update (default NX.no_edge_data o)
          CrossReferenceAnalyzer.references_attrs).

(** [key] is an edge from article [ka.1] to one of its references that is
    loaded. *)
Definition cites (arts : gmap string LegalParser.LegalArticle)
    (key : string * string) (ka : string * LegalParser.LegalArticle) : Prop :=
  key.1 = ka.1 ∧ key.2 ∈ LegalParser.references_to ka.2 ∧ is_Some (arts !! key.2).

#[global] Instance cites_dec arts key ka : Decision (cites arts key ka).
Proof. unfold cites. apply _. Defined.

(** [key] is an edge from a loaded article to one of its references that is
    loaded. *)
Definition is_reference (arts : gmap string LegalParser.LegalArticle)
    (key : string * string) : Prop :=
  Exists (cites arts key) (map_to_list arts).

(** One statement of [_add_interpretation_edges]. *)
Definition guarded_add_edge (u v kind : string) (G : NX.DiGraph) : NX.DiGraph :=
  if NX.has_node G u && NX.has_node G v
  then NX.add_edge u v (CrossReferenceAnalyzer.critical_attrs kind) G else G.

(** The kind of the hard-coded edge on [key], when its end points are
    nodes. *)
Definition curated (nodes : gmap string NX.NodeData) (key : string * string)
  : option string :=
  let present n := bool_decide (is_Some (nodes !! n)) in
  if present "28" && present "27" && bool_decide (("28", "27") = key)
  then Some "alternative"
  else if present "27" && present "16" && bool_decide (("27", "16") = key)
  then Some "requires"
  else if present "143" && present "58" && bool_decide (("143", "58") = key)
  then Some "modifies"
  else if present "103" && present "143" && bool_decide (("103", "143") = key)
  then Some "enables"
  else None.

(** The relationship kinds of the specification. *)
Definition relationship_kinds : list string :=
  ["references"; "enables"; "modifies"; "requires"; "alternative"].

(** Case analysis on every article lookup and every phrase test of the
    goal. *)
Ltac split_lookups :=
  repeat (unfold TimelineAnalyzer.append_deadline, TimelineAnalyzer.__init__; cbn;
          match goal with
          | |- context [@lookup _ _ (gmap string LegalParser.LegalArticle) _ ?k (?f ?s)] =>
              is_var s; destruct (f s !! k) eqn:?
          | |- context [Py.str_in ?a ?b] => destruct (Py.str_in a b) eqn:?
          end);
  cbn.

(** *** The phrase tests of the timeline battery, on the articles *)

(** Article 58 is loaded and holds the four-month phrase. *)
Definition has_four_months (arts : gmap string LegalParser.LegalArticle) : bool :=
  match arts !! "58" with
  | Some a => Py.str_in "τέσσερις μήνες" (LegalParser.text a)
  | None => false
  end.

(** Regulation 143 is loaded and holds the six-month phrase. *)
Definition has_six_months (arts : gmap string LegalParser.LegalArticle) : bool :=
  match arts !! "143" with
  | Some a => Py.str_in "έξι μήνες" (LegalParser.text a)
  | None => false
  end.

(** Article 28 is loaded and holds one of the two four-year phrases. *)
Definition has_four_years (arts : gmap string LegalParser.LegalArticle) : bool :=
  match arts !! "28" with
  | Some a => Py.str_in "τέσσερα χρόνια" (LegalParser.text a)
              || Py.str_in "τέσσερις ετών" (LegalParser.text a)
  | None => false
  end.

(** Regulation 143 is loaded and holds the single-dividend phrase. *)
Definition has_single_dividend (arts : gmap string LegalParser.LegalArticle) : bool :=
  match arts !! "143" with
  | Some a => Py.str_in "ένα μόνο μέρισμα" (LegalParser.text a)
  | None => false
  end.

(** Article 27 is loaded and holds the completed-examination phrase. *)
Definition has_examination_completed
    (arts : gmap string LegalParser.LegalArticle) : bool :=
  match arts !! "27" with
  | Some a => Py.str_in "ολοκληρωθεί η δημόσια εξέταση" (LegalParser.text a)
  | None => false
  end.

(** The deadlines one run of [_extract_deadlines] appends. *)
Definition found (arts : gmap string LegalParser.LegalArticle)
  : list TimelineAnalyzer.Deadline :=
  (if has_four_months arts then [TimelineAnalyzer.deadline_58_2] else [])
  ++ (if has_six_months arts then [TimelineAnalyzer.deadline_143_i] else [])
  ++ (if has_four_years arts then [TimelineAnalyzer.deadline_28] else []).

(** *** The tests of the logic battery and of the text-support score *)

(** Regulation 143 is loaded and lists 58 among its references. *)
Definition cites_58 (arts : gmap string LegalParser.LegalArticle) : bool :=
  match arts !! "143" with
  | Some a => Py.list_in "58" (LegalParser.references_to a)
  | None => false
  end.

(** Article 103 is loaded and its text holds the prohibition phrase and the
    word for examination. *)
Definition has_prohibition_text (arts : gmap string LegalParser.LegalArticle)
  : bool :=
  match arts !! "103" with
  | Some a => Py.str_in "δεν επιτρέπει την τροποποίηση" (LegalParser.text a)
              && Py.str_in "εξέταση" (LegalParser.text a)
  | None => false
  end.

(** Articles 58 and 143 are loaded and the text of 143 holds "58". *)
Definition names_58 (arts : gmap string LegalParser.LegalArticle) : bool :=
  match arts !! "58", arts !! "143" with
  | Some _, Some a => Py.str_in "58" (LegalParser.text a)
  | _, _ => false
  end.

(** The sum of a list of points. *)
Definition sum_points (l : list Z) : Z := foldr Z.add 0 l.

(** *** The hard-coded lists of the cross-reference analyzer *)

(** The end points of the four interpretation edges. *)
Definition interpretation_pairs : list (string * string) :=
  [("103", "143"); ("143", "58"); ("27", "16"); ("28", "27")].

(** The articles [find_interpretation_chain] looks for, in its order. *)
Definition chain_candidates : list string :=
  ["103"; "143"; "58"; "27"; "28"; "16"].

(** The test of the first rule of [detect_conflicts]. *)
Definition prohibition_met (arts : gmap string LegalParser.LegalArticle) : bool :=
  match arts !! "103", arts !! "143" with
  | Some a103, Some a143 =>
      Py.list_in "prohibition" (LegalParser.constraints a103)
      && Py.list_in "modification" (LegalParser.key_terms a143)
  | _, _ => false
  end.

(** *** The parser *)

(** An article with the article numbers [extra] appended to its
    [referenced_by] list. *)
Definition with_refs (extra : list string) (a : LegalParser.LegalArticle)
  : LegalParser.LegalArticle :=
  {| LegalParser.article_no := LegalParser.article_no a;
     LegalParser.title := LegalParser.title a;
     LegalParser.text := LegalParser.text a;
     LegalParser.url := LegalParser.url a;
     LegalParser.law := LegalParser.law a;
     LegalParser.key_terms := LegalParser.key_terms a;
     LegalParser.constraints := LegalParser.constraints a;
     LegalParser.references_to := LegalParser.references_to a;
     LegalParser.referenced_by := LegalParser.referenced_by a ++ extra;
     LegalParser.critical_phrases := LegalParser.critical_phrases a |}.

(** The key terms of the parser with the word each stands for, in the
    order the parser tests them. *)
Definition key_term_words : list (string * string) :=
  [("modification", "τροποποίηση"); ("examination", "εξέταση");
   ("discharge", "απαλλαγή"); ("dividend", "μέρισμα");
   ("deadline", "προθεσμία"); ("rehabilitation", "αποκατάσταση")].

(** The text holds one of the two prohibition phrases. *)
Definition prohibited (text : string) : bool :=
  Py.str_in "δεν επιτρέπει" text || Py.str_in "δεν επιτρέπεται" text.

(** The string holds no full stop. *)
Fixpoint dot_free (p : string) : bool :=
  match p with
  | EmptyString => true
  | String a rest => negb (Ascii.eqb a Py.dot) && dot_free rest
  end.

(** * Properties *)

(** ** Score aggregation (src/fact_checker.py) *)

Section FactCheckerProps.
Import FactChecker.

(** C7.  [_determine_category] is a step function of [total] with five
    buckets: strongly supported iff total >= 80, moderately supported iff
    65 <= total < 80, partially supported iff 50 <= total < 65, weakly
    supported iff 35 <= total < 50, not supported iff total < 35. *)
Theorem determine_category_buckets (self : instance) (total : Z) :
  (_determine_category self total = "Ισχυρά Υποστηριζόμενη / Strongly Supported"
     ↔ 80 ≤ total) ∧
  (_determine_category self total = "Μετρίως Υποστηριζόμενη / Moderately Supported"
     ↔ 65 ≤ total < 80) ∧
  (_determine_category self total = "Μερικώς Υποστηριζόμενη / Partially Supported"
     ↔ 50 ≤ total < 65) ∧
  (_determine_category self total = "Αδύναμα Υποστηριζόμενη / Weakly Supported"
     ↔ 35 ≤ total < 50) ∧
  (_determine_category self total = "Μη Υποστηριζόμενη / Not Supported"
     ↔ total < 35).
Proof.
  unfold _determine_category.
  repeat case_bool_decide; repeat split; intros; (lia || discriminate || reflexivity).
Qed.

(** C6.  [_determine_confidence]: with a critical ambiguity the label is
    moderate when total >= 70 and low when total < 70; with none it is high
    when total >= 70, moderate when 50 <= total < 70 and low below 50.  So
    a total of 62 gives moderate with no critical ambiguity and low with
    one. *)
Theorem determine_confidence_cases (self : instance) (total : Z) :
  ((0 < critical_ambiguities self)%nat → 70 ≤ total →
     _determine_confidence self total = "Μέτρια Εμπιστοσύνη / Moderate Confidence") ∧
  ((0 < critical_ambiguities self)%nat → total < 70 →
     _determine_confidence self total = "Χαμηλή Εμπιστοσύνη / Low Confidence") ∧
  (critical_ambiguities self = 0%nat → 70 ≤ total →
     _determine_confidence self total = "Υψηλή Εμπιστοσύνη / High Confidence") ∧
  (critical_ambiguities self = 0%nat → 50 ≤ total < 70 →
     _determine_confidence self total = "Μέτρια Εμπιστοσύνη / Moderate Confidence") ∧
  (critical_ambiguities self = 0%nat → total < 50 →
     _determine_confidence self total = "Χαμηλή Εμπιστοσύνη / Low Confidence") ∧
  (critical_ambiguities self = 0%nat →
     _determine_confidence self 62 = "Μέτρια Εμπιστοσύνη / Moderate Confidence") ∧
  (critical_ambiguities self = 1%nat →
     _determine_confidence self 62 = "Χαμηλή Εμπιστοσύνη / Low Confidence").
Proof.
  unfold _determine_confidence.
  repeat split; intros; repeat case_bool_decide; (reflexivity || lia).
Qed.

(** Scenario C on concrete reasoning results: no critical ambiguity, then
    one. *)
Lemma determine_confidence_cases_witness :
  _determine_confidence (Examples.checker ∅ Examples.no_reasoning) 62
    = "Μέτρια Εμπιστοσύνη / Moderate Confidence" ∧
  _determine_confidence (Examples.checker ∅ Examples.one_critical) 62
    = "Χαμηλή Εμπιστοσύνη / Low Confidence" ∧
  _determine_confidence (Examples.checker ∅ Examples.one_critical) 75
    = "Μέτρια Εμπιστοσύνη / Moderate Confidence".
Proof.
  split; [|split].
  - apply (determine_confidence_cases (Examples.checker ∅ Examples.no_reasoning) 62).
    reflexivity.
  - apply (determine_confidence_cases (Examples.checker ∅ Examples.one_critical) 62).
    reflexivity.
  - destruct (determine_confidence_cases
                (Examples.checker ∅ Examples.one_critical) 75) as [H _].
    apply H; [vm_compute; lia | lia].
Defined.

End FactCheckerProps.

(** ** The logical-consistency battery (src/logic_validator.py) *)

Section LogicValidatorProps.
Import LogicValidator.

(** C8.  The modification-equivalence check is the same fixed record for
    every articles mapping and every graph: 4 points out of 10, not
    supporting, ambiguity level high, and as evidence the hard-coded
    supporting arguments followed by the hard-coded contradicting ones. *)
Theorem check_modification_equivalence_fixed (self : instance) :
  points_awarded (_check_modification_equivalence self) = 4 ∧
  points_possible (_check_modification_equivalence self) = 10 ∧
  supports_interpretation (_check_modification_equivalence self) = false ∧
  ambiguity_level (_check_modification_equivalence self) = Some "high" ∧
  evidence (_check_modification_equivalence self)
    = supporting_logic ++ contradicting_logic ∧
  (∀ arts G v, _check_modification_equivalence (__init__ arts G v)
                 = _check_modification_equivalence self) ∧
  checks (validate_interpretation self) !! 2%nat
    = Some (_check_modification_equivalence self).
Proof. repeat split. Qed.

(** The points of the four checks, whatever the articles are. *)
Lemma check_prohibition_points (self : instance) :
  points_awarded (_check_prohibition_exists self) ∈ [0; 3; 8].
Proof.
  unfold _check_prohibition_exists.
  destruct (articles self !! "103") as [art103|]; simpl.
  - destruct (prohibition_phrase _); simpl; set_solver.
  - set_solver.
Qed.

Lemma check_regulation_143_points (self : instance) :
  0 ≤ points_awarded (_check_regulation_143_modifications self) ≤ 7.
Proof.
  unfold _check_regulation_143_modifications.
  destruct (articles self !! "143") as [art143|]; simpl; [|lia].
  destruct (Py.str_in "έξι μήνες" _), (Py.str_in "ένα μόνο μέρισμα" _),
    (Py.list_in "58" _); simpl; lia.
Qed.

Lemma check_single_dividend_points (self : instance) :
  points_awarded (_check_single_dividend_implication self) ∈ [0; 2].
Proof.
  unfold _check_single_dividend_implication.
  destruct (articles self !! "143") as [art143|]; simpl; [|set_solver].
  destruct (Py.str_in _ _); simpl; set_solver.
Qed.

(** The logic score lies between 4 and 21, so within its 30 points. *)
Lemma validate_interpretation_score (self : instance) :
  4 ≤ score (validate_interpretation self) ≤ 21.
Proof.
  pose proof (check_prohibition_points self) as H1.
  pose proof (check_regulation_143_points self) as H2.
  pose proof (check_single_dividend_points self) as H4.
  unfold validate_interpretation; simpl.
  set (p1 := points_awarded (_check_prohibition_exists self)) in *.
  set (p4 := points_awarded (_check_single_dividend_implication self)) in *.
  assert (0 ≤ p1 ≤ 8) by (clearbody p1; set_unfold; lia).
  assert (0 ≤ p4 ≤ 2) by (clearbody p4; set_unfold; lia).
  lia.
Qed.

End LogicValidatorProps.

(** ** The temporal battery (src/timeline_analyzer.py) *)

Section TimelineAnalyzerProps.
Import TimelineAnalyzer.

Lemma known_deadlines_init arts v : known_deadlines (__init__ arts v).
Proof. intros d Hd. simpl in Hd. set_solver. Qed.

Lemma known_deadlines_append d self :
  d ∈ [deadline_58_2; deadline_143_i; deadline_28] →
  known_deadlines self → known_deadlines (append_deadline d self).
Proof.
  intros Hd Hs d' Hd'. simpl in Hd'.
  apply elem_of_app in Hd' as [Hd'|Hd']; [by apply Hs|].
  apply list_elem_of_singleton in Hd'. by subst.
Qed.

Lemma articles_append d self : articles (append_deadline d self) = articles self.
Proof. reflexivity. Qed.

Lemma articles_extract self : articles (_extract_deadlines self) = articles self.
Proof.
  unfold _extract_deadlines.
  repeat (rewrite ?articles_append;
          match goal with
          | |- context [match ?x with _ => _ end] => destruct x
          end);
    rewrite ?articles_append; reflexivity.
Qed.

Lemma known_deadlines_extract self :
  known_deadlines self → known_deadlines (_extract_deadlines self).
Proof.
  intros Hs. unfold _extract_deadlines.
  repeat match goal with
         | |- context [match ?x with _ => _ end] => destruct x
         end;
    repeat apply known_deadlines_append; try assumption; set_solver.
Qed.

Lemma analyze_deadlines_state self :
  (analyze_deadlines self).2 = _extract_deadlines self.
Proof.
  unfold analyze_deadlines.
  destruct (_check_timeline_consistency _); reflexivity.
Qed.

Lemma articles_after_calls n self :
  articles (after_calls n self) = articles self.
Proof.
  revert self; induction n as [|n IH]; intros self; simpl; [done|].
  by rewrite IH, analyze_deadlines_state, articles_extract.
Qed.

Lemma known_deadlines_after_calls n self :
  known_deadlines self → known_deadlines (after_calls n self).
Proof.
  revert self; induction n as [|n IH]; intros self Hs; simpl; [done|].
  apply IH. rewrite analyze_deadlines_state. by apply known_deadlines_extract.
Qed.

(** What [first_deadline] finds among known deadlines. *)
Lemma first_deadline_known a self d :
  known_deadlines self → first_deadline a self = Some d →
  d ∈ [deadline_58_2; deadline_143_i; deadline_28] ∧ article d = a.
Proof.
  intros Hs Hf. unfold first_deadline in Hf.
  apply find_some in Hf as [Hin Ha].
  apply bool_decide_eq_true in Ha.
  split; [|done]. apply Hs. by apply list_elem_of_In.
Qed.

Lemma first_deadline_143_i self d :
  known_deadlines self → first_deadline "143(i)" self = Some d → d = deadline_143_i.
Proof.
  intros Hs Hf. destruct (first_deadline_known _ _ _ Hs Hf) as [Hin Ha].
  set_unfold. destruct Hin as [->|[->|[->|[]]]]; done.
Qed.

Lemma first_deadline_28 self d :
  known_deadlines self → first_deadline "28" self = Some d → d = deadline_28.
Proof.
  intros Hs Hf. destruct (first_deadline_known _ _ _ Hs Hf) as [Hin Ha].
  set_unfold. destruct Hin as [->|[->|[->|[]]]]; done.
Qed.

Lemma first_deadline_present a self d :
  d ∈ deadlines self → article d = a → is_Some (first_deadline a self).
Proof.
  intros Hin Ha. unfold first_deadline.
  destruct (List.find _ _) eqn:Hf; [by eexists|].
  exfalso. apply list_elem_of_In in Hin.
  pose proof (find_none _ _ Hf _ Hin) as Hn. simpl in Hn.
  by apply bool_decide_eq_false in Hn.
Qed.

(** The three sub-scores stay within their ranges in every state. *)
Lemma score_deadline_clarity_range self : 0 ≤ _score_deadline_clarity self ≤ 5.
Proof.
  unfold _score_deadline_clarity.
  destruct (Py.list_in "58(2)" _), (Py.list_in "143(i)" _), (Py.list_in "28" _); lia.
Qed.

Lemma check_timeline_consistency_range self :
  0 ≤ (_check_timeline_consistency self).1 ≤ 8.
Proof.
  unfold _check_timeline_consistency.
  destruct (first_deadline "143(i)" self), (first_deadline "28" self); simpl; lia.
Qed.

Lemma score_implication_strength_range self :
  0 ≤ _score_implication_strength self ≤ 6.
Proof.
  unfold _score_implication_strength.
  destruct (first_deadline "143(i)" self) as [d|]; [|lia].
  destruct (mandatory d); simpl;
    destruct (articles self !! "143") as [a143|];
    destruct (articles self !! "27") as [a27|];
    repeat match goal with
           | |- context [if ?b then _ else _] => destruct b
           end; lia.
Qed.

Lemma analyze_deadlines_score self :
  score (analyze_deadlines self).1
    = _score_deadline_clarity (_extract_deadlines self)
      + (_check_timeline_consistency (_extract_deadlines self)).1
      + _score_implication_strength (_extract_deadlines self).
Proof.
  unfold analyze_deadlines.
  destruct (_check_timeline_consistency _); reflexivity.
Qed.

(** The timeline score lies within its 20 points in every state. *)
Lemma analyze_deadlines_score_range self :
  0 ≤ score (analyze_deadlines self).1 ≤ 19.
Proof.
  rewrite analyze_deadlines_score.
  pose proof (score_deadline_clarity_range (_extract_deadlines self)).
  pose proof (check_timeline_consistency_range (_extract_deadlines self)).
  pose proof (score_implication_strength_range (_extract_deadlines self)).
  lia.
Qed.

End TimelineAnalyzerProps.

Section TimelineBattery.
Import TimelineAnalyzer.

Lemma analyze_deadlines_conflicts self :
  conflicts (analyze_deadlines self).1
    = (_check_timeline_consistency (_extract_deadlines self)).2.
Proof.
  unfold analyze_deadlines.
  destruct (_check_timeline_consistency _); reflexivity.
Qed.

Lemma analyze_deadlines_breakdown self :
  score_breakdown (analyze_deadlines self).1
    = {| deadline_clarity := _score_deadline_clarity (_extract_deadlines self);
         consistency := (_check_timeline_consistency (_extract_deadlines self)).1;
         implication_strength :=
           _score_implication_strength (_extract_deadlines self) |}.
Proof.
  unfold analyze_deadlines.
  destruct (_check_timeline_consistency _); reflexivity.
Qed.

Lemma analyze_deadlines_result_deadlines self :
  result_deadlines (analyze_deadlines self).1
    = _deadline_to_dict <$> deadlines (_extract_deadlines self).
Proof.
  unfold analyze_deadlines.
  destruct (_check_timeline_consistency _); reflexivity.
Qed.

(** What one run of [_extract_deadlines] appends depends on the articles
    only; it is appended to whatever the list already holds. *)
Lemma extract_deadlines_appends self v :
  deadlines (_extract_deadlines self)
    = deadlines self ++ deadlines (_extract_deadlines (__init__ (articles self) v)).
Proof.
  unfold _extract_deadlines. split_lookups.
  all: rewrite <- ?app_assoc, ?app_nil_r; reflexivity.
Qed.

Lemma extract_deadlines_143 self a143 :
  articles self !! "143" = Some a143 →
  Py.str_in "έξι μήνες" (LegalParser.text a143) = true →
  deadline_143_i ∈ deadlines (_extract_deadlines self).
Proof.
  intros H143 Hsix. unfold _extract_deadlines. split_lookups.
  all: simplify_eq; try congruence; set_solver.
Qed.

Lemma extract_deadlines_28 self a28 :
  articles self !! "28" = Some a28 →
  Py.str_in "τέσσερα χρόνια" (LegalParser.text a28)
    || Py.str_in "τέσσερις ετών" (LegalParser.text a28) = true →
  deadline_28 ∈ deadlines (_extract_deadlines self).
Proof.
  intros H28 Hfour. unfold _extract_deadlines. split_lookups.
  all: simplify_eq; try set_solver.
  all: repeat match goal with
              | H : Py.str_in _ _ = _ |- _ => rewrite H in Hfour
              end; discriminate.
Qed.

(** With known deadlines only, the six-month deadline found is the
    discretionary one, so the mandatory branch adds nothing. *)
Lemma score_implication_strength_known self :
  known_deadlines self → 0 ≤ _score_implication_strength self ≤ 3.
Proof.
  intros Hs. unfold _score_implication_strength.
  destruct (first_deadline "143(i)" self) as [d|] eqn:Hf; [|lia].
  apply (first_deadline_143_i _ _ Hs) in Hf as ->. cbn.
  destruct (articles self !! "143") as [a143|];
    destruct (articles self !! "27") as [a27|];
    repeat match goal with
           | |- context [if ?b then _ else _] => destruct b
           end; lia.
Qed.

(** C10.  On an analyzer built from any articles, after any number of
    earlier runs, every deadline recorded for 143(i) is not mandatory; so
    the implication-strength sub-score is at most 3 and the timeline score
    at most 16, below the 20 points it is scored out of. *)
Theorem six_month_deadline_never_mandatory
    (arts : gmap string LegalParser.LegalArticle) (v : bool) (n : nat) :
  let self := after_calls n (__init__ arts v) in
  (∀ d, d ∈ deadlines (_extract_deadlines self) →
        article d = "143(i)" → mandatory d = false) ∧
  _score_implication_strength (_extract_deadlines self) ≤ 3 ∧
  implication_strength (score_breakdown (analyze_deadlines self).1) ≤ 3 ∧
  score (analyze_deadlines self).1 ≤ 16 ∧
  score (analyze_deadlines self).1 < max_score (analyze_deadlines self).1.
Proof.
  intros self.
  assert (known_deadlines (_extract_deadlines self)) as Hk.
  { apply known_deadlines_extract, known_deadlines_after_calls,
      known_deadlines_init. }
  pose proof (score_implication_strength_known _ Hk) as Hi.
  pose proof (score_deadline_clarity_range (_extract_deadlines self)) as Hc.
  pose proof (check_timeline_consistency_range (_extract_deadlines self)) as Ht.
  assert (max_score (analyze_deadlines self).1 = 20) as Hmax.
  { unfold analyze_deadlines.
    destruct (_check_timeline_consistency _); reflexivity. }
  rewrite Hmax, analyze_deadlines_breakdown, analyze_deadlines_score; cbn.
  repeat split; try lia.
  intros d Hd Ha. apply Hk in Hd.
  set_unfold. destruct Hd as [->|[->|[->|[]]]]; done.
Qed.

(** The six-month deadline of a concrete analyzer, through the theorem. *)
Lemma six_month_deadline_never_mandatory_witness :
  mandatory deadline_143_i = false.
Proof.
  destruct (six_month_deadline_never_mandatory Examples.scenario_143 false 1)
    as [H _].
  apply (H deadline_143_i); [|reflexivity].
  apply (extract_deadlines_143 _ Examples.art143); reflexivity.
Defined.

(** C3.  A second [analyze_deadlines] on the same analyzer returns the
    deadlines of the first call twice over: on an analyzer holding
    regulation 143 with the six-month phrase the first call returns one
    deadline and the second two, so the two returned dicts differ, while
    the scores and conflicts agree. *)
Theorem analyze_deadlines_twice_accumulates :
  (∀ (arts : gmap string LegalParser.LegalArticle) (v : bool),
     let first := analyze_deadlines (__init__ arts v) in
     let second := analyze_deadlines first.2 in
     result_deadlines second.1 = result_deadlines first.1 ++ result_deadlines first.1) ∧
  (let first := analyze_deadlines (__init__ Examples.scenario_143 false) in
   let second := analyze_deadlines first.2 in
   result_deadlines first.1 = [deadline_143_i] ∧
   result_deadlines second.1 = [deadline_143_i; deadline_143_i] ∧
   second.1 ≠ first.1 ∧
   score second.1 = score first.1 ∧
   conflicts second.1 = conflicts first.1).
Proof.
  split.
  - intros arts v first second. subst first second.
    rewrite !analyze_deadlines_result_deadlines, analyze_deadlines_state.
    rewrite (extract_deadlines_appends (_extract_deadlines _) v).
    rewrite articles_extract, fmap_app. reflexivity.
  - cbv zeta. repeat split; try (vm_compute; reflexivity).
    intros Heq. apply (f_equal (λ r, length (result_deadlines r))) in Heq.
    vm_compute in Heq. discriminate.
Qed.

End TimelineBattery.

(** ** Score bounds *)

Section ScoreBounds.
Import FactChecker.

Lemma score_text_support_range (self : instance) :
  0 ≤ _score_text_support self ≤ 40.
Proof.
  unfold _score_text_support.
  destruct (articles self !! "103") as [a103|];
    destruct (articles self !! "143") as [a143|];
    destruct (articles self !! "27") as [a27|];
    destruct (articles self !! "58") as [a58|];
    repeat match goal with
           | |- context [if ?b then _ else _] => destruct b
           end; lia.
Qed.

(** C1.  For every articles mapping, with the logic result produced by
    [validate_interpretation] and the timeline result produced by
    [analyze_deadlines] (on any validator and any analyzer) and any
    reasoning result, [calculate_score] returns 0 <= logic_score <= 30,
    0 <= timeline_score <= 20, 0 <= text_support <= 40, precedent = 5 and
    0 <= total <= 100, the total being the sum of the four components. *)
Theorem calculate_score_bounds
    (arts : gmap string LegalParser.LegalArticle)
    (validator : LogicValidator.instance)
    (analyzer : TimelineAnalyzer.instance)
    (rr : ReasoningResults) (v : bool) :
  let logic := LogicValidator.validate_interpretation validator in
  let timeline := (TimelineAnalyzer.analyze_deadlines analyzer).1 in
  let s := calculate_score (__init__ arts logic timeline rr v) in
  logic_score s = LogicValidator.score logic ∧
  0 ≤ logic_score s ≤ 30 ∧
  timeline_score s = TimelineAnalyzer.score timeline ∧
  0 ≤ timeline_score s ≤ 20 ∧
  0 ≤ text_support s ≤ 40 ∧
  precedent s = 5 ∧
  total s = text_support s + logic_score s + timeline_score s + precedent s ∧
  0 ≤ total s ≤ 100.
Proof.
  intros logic timeline s.
  pose proof (validate_interpretation_score validator) as Hl.
  pose proof (analyze_deadlines_score_range analyzer) as Ht.
  pose proof (score_text_support_range (__init__ arts logic timeline rr v)) as Hx.
  subst s logic timeline. unfold calculate_score; cbn [logic_score timeline_score
    text_support precedent total logic_results timeline_results __init__].
  unfold _score_precedent.
  cbn [logic_results timeline_results __init__] in *.
  repeat split; lia.
Qed.

End ScoreBounds.

(** ** Scenario B: regulation 143 against article 28 *)

Section ScenarioB.
Import LegalParser.

Lemma detect_conflicts_shape (self : CrossReferenceAnalyzer.instance) :
  Py.dict_in "143" (CrossReferenceAnalyzer.articles self) = true →
  Py.dict_in "28" (CrossReferenceAnalyzer.articles self) = true →
  CrossReferenceAnalyzer.detect_conflicts self
    = [CrossReferenceAnalyzer.timeline_inconsistency] ∨
  CrossReferenceAnalyzer.detect_conflicts self
    = [CrossReferenceAnalyzer.prohibition_vs_modification;
       CrossReferenceAnalyzer.timeline_inconsistency].
Proof.
  intros H143 H28. unfold CrossReferenceAnalyzer.detect_conflicts.
  rewrite H143, H28. cbn.
  destruct (CrossReferenceAnalyzer.articles self !! "103") as [a103|];
    destruct (CrossReferenceAnalyzer.articles self !! "143") as [a143|];
    try (left; reflexivity).
  destruct (Py.list_in "prohibition" _ && Py.list_in "modification" _);
    [right | left]; reflexivity.
Qed.

(** C2, counterexample.  With 143 holding the six-month phrase and 28 the
    four-year phrase, [detect_conflicts] does not emit exactly one
    [timeline_mismatch] conflict at high severity: it emits none. *)
Lemma detect_conflicts_no_timeline_mismatch :
  Examples.scenario_B !! "143" = Some Examples.art143 ∧
  Py.str_in "έξι μήνες" (text Examples.art143) = true ∧
  Examples.scenario_B !! "28" = Some Examples.art28 ∧
  Py.str_in "τέσσερα χρόνια" (text Examples.art28) = true ∧
  CrossReferenceAnalyzer.detect_conflicts
    (CrossReferenceAnalyzer.__init__ Examples.scenario_B false)
    = [CrossReferenceAnalyzer.timeline_inconsistency] ∧
  length (filter (λ c, CrossReferenceAnalyzer.conflict_type c = "timeline_mismatch"
                       ∧ CrossReferenceAnalyzer.conflict_severity c = "high")
                 (CrossReferenceAnalyzer.detect_conflicts
                    (CrossReferenceAnalyzer.__init__ Examples.scenario_B false)))
    ≠ 1%nat.
Proof. repeat split; try (vm_compute; reflexivity). vm_compute. discriminate. Qed.

(** C2, as the code has it.  With 143 holding the six-month phrase and 28
    a four-year phrase, [detect_conflicts] emits no [timeline_mismatch]
    conflict and exactly one conflict on 143 and 28, of kind
    [timeline_inconsistency] at medium severity; the timeline battery (on a
    new analyzer or after earlier runs) emits exactly one
    [timeline_mismatch] conflict, at high severity on 143(i) and 28, and
    its consistency sub-score is 8 - 5 - 2 = 1. *)
Theorem scenario_B_timeline_conflicts
    (arts : gmap string LegalArticle) (a143 a28 : LegalArticle)
    (v : bool) (n : nat) :
  arts !! "143" = Some a143 →
  Py.str_in "έξι μήνες" (text a143) = true →
  arts !! "28" = Some a28 →
  Py.str_in "τέσσερα χρόνια" (text a28) || Py.str_in "τέσσερις ετών" (text a28) = true →
  let detected :=
    CrossReferenceAnalyzer.detect_conflicts (CrossReferenceAnalyzer.__init__ arts v) in
  let battery :=
    (TimelineAnalyzer.analyze_deadlines
       (TimelineAnalyzer.after_calls n (TimelineAnalyzer.__init__ arts v))).1 in
  filter (λ c, CrossReferenceAnalyzer.conflict_type c = "timeline_mismatch") detected
    = [] ∧
  filter (λ c, CrossReferenceAnalyzer.conflict_articles c = ["143"; "28"]) detected
    = [CrossReferenceAnalyzer.timeline_inconsistency] ∧
  CrossReferenceAnalyzer.conflict_type CrossReferenceAnalyzer.timeline_inconsistency
    = "timeline_inconsistency" ∧
  CrossReferenceAnalyzer.conflict_severity CrossReferenceAnalyzer.timeline_inconsistency
    = "medium" ∧
  (∃ c, filter (λ c, TimelineAnalyzer.conflict_type c = "timeline_mismatch")
               (TimelineAnalyzer.conflicts battery) = [c]
        ∧ TimelineAnalyzer.conflict_severity c = "high"
        ∧ TimelineAnalyzer.conflict_articles c = ["143(i)"; "28"]) ∧
  TimelineAnalyzer.consistency (TimelineAnalyzer.score_breakdown battery) = 8 - 5 - 2 ∧
  TimelineAnalyzer.consistency (TimelineAnalyzer.score_breakdown battery) = 1.
Proof.
  intros H143 Hsix H28 Hfour detected battery.
  assert (detected = [CrossReferenceAnalyzer.timeline_inconsistency] ∨
          detected = [CrossReferenceAnalyzer.prohibition_vs_modification;
                      CrossReferenceAnalyzer.timeline_inconsistency]) as Hdet.
  { apply detect_conflicts_shape; unfold Py.dict_in; cbn;
      apply bool_decide_eq_true; rewrite ?H143, ?H28; by eexists. }
  set (self := TimelineAnalyzer._extract_deadlines
                 (TimelineAnalyzer.after_calls n (TimelineAnalyzer.__init__ arts v))).
  assert (known_deadlines self) as Hk.
  { apply known_deadlines_extract, known_deadlines_after_calls,
      known_deadlines_init. }
  assert (TimelineAnalyzer.articles
            (TimelineAnalyzer.after_calls n (TimelineAnalyzer.__init__ arts v)) = arts)
    as Harts by (by rewrite articles_after_calls).
  assert (TimelineAnalyzer.first_deadline "143(i)" self
            = Some TimelineAnalyzer.deadline_143_i) as F6.
  { destruct (first_deadline_present "143(i)" self TimelineAnalyzer.deadline_143_i)
      as [d Hd]; [|reflexivity|].
    - apply (extract_deadlines_143 _ a143); [by rewrite Harts|done].
    - rewrite Hd. f_equal. by apply (first_deadline_143_i self). }
  assert (TimelineAnalyzer.first_deadline "28" self
            = Some TimelineAnalyzer.deadline_28) as F4.
  { destruct (first_deadline_present "28" self TimelineAnalyzer.deadline_28)
      as [d Hd]; [|reflexivity|].
    - apply (extract_deadlines_28 _ a28); [by rewrite Harts|done].
    - rewrite Hd. f_equal. by apply (first_deadline_28 self). }
  assert (TimelineAnalyzer._check_timeline_consistency self
            = (1, [TimelineAnalyzer.timeline_mismatch
                     TimelineAnalyzer.deadline_143_i TimelineAnalyzer.deadline_28;
                   TimelineAnalyzer.implicit_connection])) as Hc.
  { unfold TimelineAnalyzer._check_timeline_consistency. rewrite F6, F4.
    reflexivity. }
  subst battery.
  rewrite analyze_deadlines_conflicts, analyze_deadlines_breakdown.
  fold self. rewrite Hc. cbn [fst snd TimelineAnalyzer.consistency].
  repeat split.
  - destruct Hdet as [-> | ->]; vm_compute; reflexivity.
  - destruct Hdet as [-> | ->]; vm_compute; reflexivity.
  - exists (TimelineAnalyzer.timeline_mismatch
              TimelineAnalyzer.deadline_143_i TimelineAnalyzer.deadline_28).
    split; [|split; reflexivity].
    rewrite filter_cons_True by reflexivity.
    rewrite filter_cons_False by discriminate.
    reflexivity.
Qed.

(** Scenario B on the concrete articles of the examples. *)
Lemma scenario_B_timeline_conflicts_witness :
  TimelineAnalyzer.consistency
    (TimelineAnalyzer.score_breakdown
       (TimelineAnalyzer.analyze_deadlines
          (TimelineAnalyzer.after_calls 0
             (TimelineAnalyzer.__init__ Examples.scenario_B false))).1) = 1.
Proof.
  apply (scenario_B_timeline_conflicts Examples.scenario_B
           Examples.art143 Examples.art28 false 0);
    vm_compute; reflexivity.
Defined.

End ScenarioB.

(** ** The reference graph (src/cross_reference_analyzer.py) *)

Section GraphLoops.
Import LegalParser NX CrossReferenceAnalyzer.

Implicit Types (G : DiGraph) (arts : gmap string LegalArticle).
Implicit Types (key : string * string) (l : list (string * LegalArticle)).

(** [build_graph] passes every node attribute, so an update replaces the
    stored ones; likewise for the critical edges. *)
Lemma node_update_attrs old a : node_update old (node_attrs a) = node_attrs a.
Proof. reflexivity. Qed.

Lemma edge_update_critical old kind :
  edge_update old (critical_attrs kind) = critical_attrs kind.
Proof. reflexivity. Qed.

Lemma ref_upd_idem o : ref_upd (ref_upd o) = ref_upd o.
Proof. destruct o as [[r c]|]; reflexivity. Qed.

Lemma add_edge_adj u v attr G key :
  _adj (add_edge u v attr G) !! key
    = if decide ((u, v) = key)
      then Some (edge_update (default no_edge_data (_adj G !! key)) attr)
      else _adj G !! key.
Proof.
  unfold add_edge; cbn. rewrite lookup_insert.
  destruct (decide ((u, v) = key)) as [<-|]; reflexivity.
Qed.

Lemma ensure_node_present n (nodes : gmap string NodeData) :
  is_Some (nodes !! n) → ensure_node n nodes = nodes.
Proof. intros [d Hd]. unfold ensure_node. by rewrite Hd. Qed.

Lemma add_edge_nodes u v attr G :
  is_Some (_node G !! u) → is_Some (_node G !! v) →
  _node (add_edge u v attr G) = _node G.
Proof.
  intros Hu Hv. unfold add_edge; cbn.
  rewrite (ensure_node_present u) by done. by rewrite ensure_node_present.
Qed.

(** *** First loop: the nodes *)

Lemma add_nodes_fold_adj l G :
  _adj (foldl (λ G '(article_no, article),
                 add_node article_no (node_attrs article) G) G l) = _adj G.
Proof.
  revert G; induction l as [|[k a] l IH]; intros G; cbn; [done|].
  by rewrite IH.
Qed.

Lemma add_nodes_fold_lookup l G n :
  NoDup l.*1 →
  _node (foldl (λ G '(article_no, article),
                  add_node article_no (node_attrs article) G) G l) !! n
    = match (list_to_map l : gmap string LegalArticle) !! n with
      | Some a => Some (node_attrs a)
      | None => _node G !! n
      end.
Proof.
  revert G; induction l as [|[k a] l IH]; intros G Hnd; cbn; [done|].
  apply NoDup_cons in Hnd as [Hk Hnd]. rewrite IH by done.
  destruct (decide (k = n)) as [->|Hne].
  - rewrite lookup_insert_eq.
    rewrite (not_elem_of_list_to_map_1 _ _ Hk).
    cbn. by rewrite lookup_insert_eq, node_update_attrs.
  - rewrite lookup_insert_ne by done.
    destruct (list_to_map l !! n); [done|].
    cbn. by rewrite lookup_insert_ne.
Qed.

Lemma add_article_nodes_adj arts G : _adj (add_article_nodes arts G) = _adj G.
Proof. apply add_nodes_fold_adj. Qed.

Lemma add_article_nodes_lookup arts G n :
  _node (add_article_nodes arts G) !! n
    = match arts !! n with
      | Some a => Some (node_attrs a)
      | None => _node G !! n
      end.
Proof.
  unfold add_article_nodes.
  rewrite add_nodes_fold_lookup by apply NoDup_fst_map_to_list.
  by rewrite list_to_map_to_list.
Qed.

(** *** Second loop: the [references] edges *)

Lemma add_edge_references_adj u v G key :
  _adj (add_edge u v references_attrs G) !! key
    = if decide ((u, v) = key) then ref_upd (_adj G !! key) else _adj G !! key.
Proof. apply add_edge_adj. Qed.

Lemma add_reference_edges_of_adj arts u refs G key :
  _adj (add_reference_edges_of arts u refs G) !! key
    = if bool_decide (key.1 = u ∧ key.2 ∈ refs ∧ is_Some (arts !! key.2))
      then ref_upd (_adj G !! key)
      else _adj G !! key.
Proof.
  unfold add_reference_edges_of.
  induction refs as [|r refs IH] using rev_ind.
  - cbn. rewrite bool_decide_eq_false_2; [done|].
    intros (_ & Hin & _). by apply elem_of_nil in Hin.
  - rewrite foldl_snoc.
    assert (∀ P Q : Prop, ∀ (dP : Decision P) (dQ : Decision Q) (x y : option EdgeData),
              (P ↔ Q) →
              (if bool_decide P then x else y) = (if bool_decide Q then x else y))
      as Hext.
    { intros P Q dP dQ x y HPQ. by rewrite (bool_decide_ext P Q HPQ). }
    destruct (Py.dict_in r arts) eqn:Hr; unfold Py.dict_in in Hr.
    + apply bool_decide_eq_true in Hr.
      rewrite add_edge_references_adj, IH. clear IH.
      destruct (decide ((u, r) = key)) as [<-|Hne]; cbn [fst snd].
      * rewrite (bool_decide_eq_true_2 (u = u ∧ r ∈ refs ++ [r] ∧ _)).
        -- case_bool_decide; [apply ref_upd_idem|done].
        -- split; [done|]. split; [|done]. apply elem_of_app; right.
           by apply list_elem_of_singleton.
      * apply Hext. destruct key as [x y]; cbn [fst snd].
        rewrite elem_of_app, list_elem_of_singleton.
        split; [tauto|]. intros (-> & [Hy | ->] & Hs); [tauto|done].
    + apply bool_decide_eq_false in Hr. rewrite IH. clear IH.
      apply Hext. destruct key as [x y]; cbn [fst snd].
      rewrite elem_of_app, list_elem_of_singleton.
      split; [tauto|]. intros (-> & [Hy | ->] & Hs); [tauto|done].
Qed.

Lemma add_reference_edges_of_nodes arts u refs G :
  is_Some (_node G !! u) →
  (∀ r, is_Some (arts !! r) → is_Some (_node G !! r)) →
  _node (add_reference_edges_of arts u refs G) = _node G.
Proof.
  intros Hu Harts. unfold add_reference_edges_of.
  induction refs as [|r refs IH] using rev_ind; [done|].
  rewrite foldl_snoc.
  destruct (Py.dict_in r arts) eqn:Hr; unfold Py.dict_in in Hr; [|done].
  apply bool_decide_eq_true in Hr.
  rewrite add_edge_nodes; rewrite ?IH; auto.
Qed.

Lemma add_refs_fold_adj arts l G key :
  _adj (foldl (λ G '(article_no, article),
                 add_reference_edges_of arts article_no (references_to article) G)
              G l) !! key
    = if bool_decide (Exists (cites arts key) l)
      then ref_upd (_adj G !! key)
      else _adj G !! key.
Proof.
  induction l as [|[k a] l IH] using rev_ind.
  - rewrite (bool_decide_eq_false_2 (Exists _ [])); [done|].
    by intros ?%Exists_nil.
  - rewrite foldl_snoc, add_reference_edges_of_adj, IH. clear IH.
    assert (Exists (cites arts key) (l ++ [(k, a)])
            ↔ Exists (cites arts key) l ∨ cites arts key (k, a)) as Hex.
    { rewrite Exists_app, Exists_cons, Exists_nil. tauto. }
    rewrite (bool_decide_ext _ _ Hex).
    clear Hex. assert (cites arts key (k, a)
            ↔ key.1 = k ∧ key.2 ∈ references_to a ∧ is_Some (arts !! key.2))
      as Hc by reflexivity.
    repeat case_bool_decide; try tauto;
      rewrite ?ref_upd_idem; reflexivity.
Qed.

Lemma add_refs_fold_nodes arts l G :
  (∀ k a, (k, a) ∈ l → is_Some (_node G !! k)) →
  (∀ r, is_Some (arts !! r) → is_Some (_node G !! r)) →
  _node (foldl (λ G '(article_no, article),
                  add_reference_edges_of arts article_no (references_to article) G)
               G l) = _node G.
Proof.
  intros Hl Harts.
  induction l as [|[k a] l IH] using rev_ind; [done|].
  rewrite foldl_snoc.
  assert (∀ k a, (k, a) ∈ l → is_Some (_node G !! k)) as Hl'.
  { intros k' a' Hin. apply (Hl k' a'). set_solver. }
  specialize (IH Hl').
  rewrite add_reference_edges_of_nodes; rewrite ?IH; auto.
  apply (Hl k a). set_solver.
Qed.

End GraphLoops.

Section GraphBuild.
Import LegalParser NX CrossReferenceAnalyzer.

Implicit Types (G : DiGraph) (arts : gmap string LegalArticle).
Implicit Types (key : string * string).

(** *** Third step: the interpretation edges *)

Lemma add_interpretation_edges_unfold G :
  _add_interpretation_edges G
    = guarded_add_edge "28" "27" "alternative"
        (guarded_add_edge "27" "16" "requires"
           (guarded_add_edge "143" "58" "modifies"
              (guarded_add_edge "103" "143" "enables" G))).
Proof. reflexivity. Qed.

Lemma guarded_add_edge_nodes u v kind G :
  _node (guarded_add_edge u v kind G) = _node G.
Proof.
  unfold guarded_add_edge, has_node.
  repeat case_bool_decide; cbn [andb]; try done.
  by apply add_edge_nodes.
Qed.

Lemma guarded_add_edge_adj u v kind G key :
  _adj (guarded_add_edge u v kind G) !! key
    = if has_node G u && has_node G v && bool_decide ((u, v) = key)
      then Some (critical_attrs kind)
      else _adj G !! key.
Proof.
  unfold guarded_add_edge.
  destruct (has_node G u && has_node G v); cbn [andb].
  - rewrite add_edge_adj, edge_update_critical.
    destruct (decide ((u, v) = key)).
    + by rewrite bool_decide_eq_true_2.
    + by rewrite bool_decide_eq_false_2.
  - done.
Qed.

Lemma add_interpretation_edges_nodes G :
  _node (_add_interpretation_edges G) = _node G.
Proof.
  rewrite add_interpretation_edges_unfold.
  by rewrite !guarded_add_edge_nodes.
Qed.

Lemma add_interpretation_edges_adj G key :
  _adj (_add_interpretation_edges G) !! key
    = match curated (_node G) key with
      | Some kind => Some (critical_attrs kind)
      | None => _adj G !! key
      end.
Proof.
  rewrite add_interpretation_edges_unfold.
  rewrite !guarded_add_edge_adj. unfold has_node.
  rewrite !guarded_add_edge_nodes. unfold curated.
  repeat match goal with
         | |- context [if ?b then _ else _] => destruct b
         end; reflexivity.
Qed.

Lemma curated_known nodes key kind :
  curated nodes key = Some kind →
  kind ∈ ["enables"; "modifies"; "requires"; "alternative"].
Proof.
  unfold curated.
  repeat match goal with
         | |- context [if ?b then _ else _] => destruct b
         end; intros; simplify_eq; set_solver.
Qed.

(** *** The whole of [build_graph] *)

Lemma is_reference_spec arts u v :
  is_reference arts (u, v)
  ↔ ∃ a, arts !! u = Some a ∧ v ∈ references_to a ∧ is_Some (arts !! v).
Proof.
  unfold is_reference. rewrite Exists_exists. split.
  - intros [[k a] [Hin [Hk [Hv Hs]]]]. cbn in *. subst k.
    apply elem_of_map_to_list in Hin. eauto.
  - intros [a [Ha [Hv Hs]]]. exists (u, a). split; [|done].
    by apply elem_of_map_to_list.
Qed.

Lemma build_graph_on_nodes arts G n :
  _node (build_graph_on arts G) !! n
    = match arts !! n with
      | Some a => Some (node_attrs a)
      | None => _node G !! n
      end.
Proof.
  unfold build_graph_on, add_reference_edges.
  rewrite add_interpretation_edges_nodes, add_refs_fold_nodes.
  - apply add_article_nodes_lookup.
  - intros k a Hin%elem_of_map_to_list.
    rewrite add_article_nodes_lookup, Hin. by eexists.
  - intros r [a Ha]. rewrite add_article_nodes_lookup, Ha. by eexists.
Qed.

Lemma build_graph_on_adj arts G key :
  _adj (build_graph_on arts G) !! key
    = match curated (_node (build_graph_on arts G)) key with
      | Some kind => Some (critical_attrs kind)
      | None => if bool_decide (is_reference arts key)
                then ref_upd (_adj G !! key)
                else _adj G !! key
      end.
Proof.
  unfold build_graph_on at 1.
  rewrite add_interpretation_edges_adj.
  replace (_node (add_reference_edges arts (add_article_nodes arts G)))
    with (_node (build_graph_on arts G))
    by (unfold build_graph_on; by rewrite add_interpretation_edges_nodes).
  destruct (curated _ key); [done|].
  unfold add_reference_edges. rewrite add_refs_fold_adj.
  by rewrite add_article_nodes_adj.
Qed.

Lemma empty_adj key : _adj NX.empty !! key = None.
Proof. apply lookup_empty. Qed.

Lemma digraph_eq G1 G2 : _node G1 = _node G2 → _adj G1 = _adj G2 → G1 = G2.
Proof. destruct G1, G2; cbn; intros; by subst. Qed.

Lemma build_graph_on_idempotent arts G :
  build_graph_on arts (build_graph_on arts G) = build_graph_on arts G.
Proof.
  assert (_node (build_graph_on arts (build_graph_on arts G))
          = _node (build_graph_on arts G)) as Hn.
  { apply map_eq; intros n. rewrite !build_graph_on_nodes.
    by destruct (arts !! n). }
  apply digraph_eq; [done|].
  apply map_eq; intros key.
  rewrite build_graph_on_adj, Hn, (build_graph_on_adj arts G key).
  destruct (curated _ key); [done|].
  case_bool_decide; [apply ref_upd_idem|done].
Qed.

End GraphBuild.

Section GraphClaims.
Import LegalParser NX CrossReferenceAnalyzer.

(** C5.  A second [build_graph] on the same analyzer, whatever graph it
    holds before the first, returns and leaves the graph of the first: the
    node set, the edge set and every attribute are equal, nothing
    accumulates. *)
Theorem build_graph_twice (self : instance) :
  let first := build_graph self in
  let second := build_graph first.2 in
  second.1 = first.1 ∧
  dom (_node second.1) = dom (_node first.1) ∧
  dom (_adj second.1) = dom (_adj first.1) ∧
  number_of_edges second.1 = number_of_edges first.1 ∧
  second.2 = first.2.
Proof.
  intros first second. subst first second.
  unfold build_graph; cbn.
  rewrite build_graph_on_idempotent. done.
Qed.

(** The graph of the example in which 143 cites 58: one edge. *)
Example build_graph_143_58 :
  edges (build_graph (__init__ Examples.scenario_143_58 false)).1
    = [("143", "58", {| relationship := Some "modifies"; critical := Some true |})].
Proof. vm_compute. reflexivity. Qed.

(** The edge from 143 to 58 in a graph built from articles holding both. *)
Lemma build_graph_edge_143_58 (arts : gmap string LegalArticle) G :
  is_Some (arts !! "143") → is_Some (arts !! "58") →
  _adj (build_graph_on arts G) !! ("143", "58") = Some (critical_attrs "modifies").
Proof.
  intros [a143 H143] [a58 H58].
  rewrite build_graph_on_adj. unfold curated.
  rewrite (bool_decide_eq_true_2 (is_Some (_ !! "143")))
    by (rewrite build_graph_on_nodes, H143; by eexists).
  rewrite (bool_decide_eq_true_2 (is_Some (_ !! "58")))
    by (rewrite build_graph_on_nodes, H58; by eexists).
  rewrite (bool_decide_eq_false_2 (("28", "27") = ("143", "58"))) by done.
  rewrite (bool_decide_eq_false_2 (("27", "16") = ("143", "58"))) by done.
  rewrite (bool_decide_eq_true_2 (("143", "58") = ("143", "58"))) by done.
  rewrite !andb_false_r. reflexivity.
Qed.

(** C4, counterexample.  No articles mapping in which 143 cites 58 and both
    are loaded yields a graph with two distinct edges from 143 to 58, one
    of kind [references] and one of kind [modifies]. *)
Lemma no_parallel_edges_143_58 :
  ¬ ∃ (arts : gmap string LegalArticle) (a143 : LegalArticle) (v : bool)
      (e1 e2 : string * string * EdgeData),
      arts !! "143" = Some a143 ∧ "58" ∈ references_to a143 ∧
      is_Some (arts !! "58") ∧
      e1 ∈ edges (build_graph (__init__ arts v)).1 ∧
      e2 ∈ edges (build_graph (__init__ arts v)).1 ∧
      e1 ≠ e2 ∧
      e1.1 = ("143", "58") ∧ e2.1 = ("143", "58") ∧
      relationship e1.2 = Some "references" ∧
      relationship e2.2 = Some "modifies".
Proof.
  intros (arts & a143 & v & [k1 d1] & e2 & H143 & Href & H58 & H1 & _ & _
          & Hk1 & _ & Hr1 & _).
  cbn in Hk1, Hr1. subst k1.
  apply elem_of_map_to_list in H1. cbn in H1.
  rewrite build_graph_edge_143_58 in H1 by (done || by eexists).
  by simplify_eq.
Qed.

(** C4, as the code has it.  When 143 cites 58 and both are loaded, the
    second loop adds the edge from 143 to 58 with kind [references], and
    the interpretation step overwrites its attributes: the built graph has
    exactly one edge from 143 to 58, of kind [modifies] and critical. *)
Theorem single_edge_143_58
    (arts : gmap string LegalArticle) (a143 : LegalArticle) (v : bool) :
  arts !! "143" = Some a143 →
  "58" ∈ references_to a143 →
  is_Some (arts !! "58") →
  let G := (build_graph (__init__ arts v)).1 in
  _adj (add_reference_edges arts (add_article_nodes arts NX.empty)) !! ("143", "58")
    = Some {| relationship := Some "references"; critical := None |} ∧
  _adj G !! ("143", "58")
    = Some {| relationship := Some "modifies"; critical := Some true |} ∧
  (∀ d, ("143", "58", d) ∈ edges G
        ↔ d = {| relationship := Some "modifies"; critical := Some true |}).
Proof.
  intros H143 Href H58 G.
  assert (_adj G !! ("143", "58") = Some (critical_attrs "modifies")) as HG.
  { apply build_graph_edge_143_58; [by eexists|done]. }
  split; [|split; [exact HG|]].
  - unfold add_reference_edges.
    rewrite add_refs_fold_adj, add_article_nodes_adj.
    rewrite bool_decide_eq_true_2; [reflexivity|].
    apply (is_reference_spec arts "143" "58"). eauto.
  - intros d. unfold edges. rewrite elem_of_map_to_list, HG.
    split; [by intros [= <-]|by intros ->].
Qed.

(** The example in which 143 cites 58, through the theorem. *)
Lemma single_edge_143_58_witness :
  _adj (build_graph (__init__ Examples.scenario_143_58 false)).1 !! ("143", "58")
    = Some {| relationship := Some "modifies"; critical := Some true |}.
Proof.
  apply (single_edge_143_58 Examples.scenario_143_58 Examples.art143 false).
  - vm_compute. reflexivity.
  - apply list_elem_of_here.
  - vm_compute. by eexists.
Defined.

(** The graph layer stores any kind it is given. *)
Example add_edge_any_kind :
  _adj (add_edge "103" "143" (critical_attrs "bogus") NX.empty) !! ("103", "143")
    = Some (critical_attrs "bogus").
Proof. vm_compute. reflexivity. Qed.

(** C9, counterexample.  Constructing the analyzer never fails: the
    constructor takes the articles and the verbose flag, no curated edge
    list, and validates nothing. *)
Lemma construct_never_raises :
  ¬ ∃ (arts : gmap string LegalArticle) (v : bool) (msg : string),
      construct arts v = Py.Raise msg.
Proof. intros (arts & v & msg & H). discriminate H. Qed.

(** C9, as the code has it.  The constructor takes no curated edge list
    and always returns an analyzer with an empty graph; the interpretation
    edges are fixed in [_add_interpretation_edges], and every edge of a
    graph built by a new analyzer has a kind of the enumeration: a curated
    kind with the critical flag, or [references]. *)
Theorem built_graph_kinds_known
    (arts : gmap string LegalArticle) (v : bool) :
  construct arts v = Py.Return (__init__ arts v) ∧
  graph (__init__ arts v) = NX.empty ∧
  (∀ u w d, (u, w, d) ∈ edges (build_graph (__init__ arts v)).1 →
     ∃ kind, relationship d = Some kind ∧ kind ∈ relationship_kinds ∧
             ((critical d = Some true ∧ curated (_node (build_graph (__init__ arts v)).1)
                                           (u, w) = Some kind)
              ∨ (critical d = None ∧ kind = "references"))).
Proof.
  split; [reflexivity|]. split; [reflexivity|].
  intros u w d Hin. unfold edges in Hin.
  apply elem_of_map_to_list in Hin. cbn in Hin.
  rewrite build_graph_on_adj in Hin. cbn [build_graph fst].
  rewrite empty_adj in Hin.
  destruct (curated _ (u, w)) as [kind|] eqn:Hc.
  - injection Hin as <-. exists kind. split; [done|]. split; [|left; done].
    apply curated_known in Hc. unfold relationship_kinds.
    by apply list_elem_of_further.
  - case_bool_decide; [|discriminate Hin].
    injection Hin as <-.
    exists "references". split; [done|]. unfold relationship_kinds.
    split; [apply list_elem_of_here|right; done].
Qed.

(** The edge of the example in which 143 cites 58, through the theorem. *)
Lemma built_graph_kinds_known_witness :
  ∃ kind, Some "modifies" = Some kind ∧ kind ∈ relationship_kinds.
Proof.
  destruct (built_graph_kinds_known Examples.scenario_143_58 false)
    as (_ & _ & H).
  destruct (H "143" "58" (critical_attrs "modifies")) as (kind & Hk & Hin & _).
  - unfold edges. apply elem_of_map_to_list. vm_compute. reflexivity.
  - exists kind. split; [exact Hk|exact Hin].
Defined.

End GraphClaims.

(** * Further properties of the code *)

(** ** The timeline battery as a function of the articles *)

Section TimelineClosedForm.
Import TimelineAnalyzer.

Implicit Types (arts : gmap string LegalParser.LegalArticle).

Lemma find_app_first {A} (P : A → bool) (l1 l2 : list A) :
  List.find P (l1 ++ l2)
    = match List.find P l1 with Some x => Some x | None => List.find P l2 end.
Proof.
  induction l1 as [|x l1 IH]; cbn; [done|]. by destruct (P x).
Qed.

Lemma find_copies {A} (P : A → bool) (l : list A) (n : nat) :
  List.find P (concat (replicate n l) ++ l) = List.find P l.
Proof.
  induction n as [|n IH]; cbn; [done|].
  rewrite <- app_assoc, find_app_first, IH. by destruct (List.find P l).
Qed.

Lemma copies_comm {A} (l : list A) (n : nat) :
  concat (replicate n l) ++ l = l ++ concat (replicate n l).
Proof.
  induction n as [|n IH]; cbn; [by rewrite app_nil_r|].
  by rewrite <- app_assoc, IH.
Qed.

Lemma fmap_copies {A B} (f : A → B) (l : list A) (n : nat) :
  f <$> concat (replicate n l) = concat (replicate n (f <$> l)).
Proof.
  induction n as [|n IH]; cbn; [done|]. by rewrite fmap_app, IH.
Qed.

(** [x in [d.article for d in self.deadlines]] holds exactly when the
    search for the first such deadline succeeds. *)
Lemma list_in_first_deadline a self :
  Py.list_in a (article <$> deadlines self)
    = match first_deadline a self with Some _ => true | None => false end.
Proof.
  unfold Py.list_in, first_deadline.
  induction (deadlines self) as [|d l IH]; cbn.
  - apply bool_decide_eq_false_2. by intros ?%elem_of_nil.
  - destruct (decide (article d = a)) as [Hd|Hd].
    + rewrite (bool_decide_eq_true_2 _ Hd).
      apply bool_decide_eq_true_2. rewrite Hd. apply list_elem_of_here.
    + rewrite (bool_decide_eq_false_2 _ Hd), <- IH.
      apply bool_decide_ext. rewrite elem_of_cons.
      split; [intros [Ha|Hin]; [congruence|done]|by right].
Qed.

Lemma extract_deadlines_found arts v ds :
  _extract_deadlines {| articles := arts; verbose := v; deadlines := ds |}
    = {| articles := arts; verbose := v; deadlines := ds ++ found arts |}.
Proof.
  unfold _extract_deadlines, found, has_four_months, has_six_months,
    has_four_years, append_deadline; cbn.
  destruct (arts !! "58") as [a58|]; cbn;
    [destruct (Py.str_in "τέσσερις μήνες" _); cbn|];
    (destruct (arts !! "143") as [a143|]; cbn;
     [destruct (Py.str_in "έξι μήνες" _); cbn|]);
    (destruct (arts !! "28") as [a28|]; cbn;
     [destruct (Py.str_in "τέσσερα χρόνια" _ || Py.str_in "τέσσερις ετών" _); cbn|]);
    f_equal; rewrite <- ?app_assoc, ?app_nil_r; reflexivity.
Qed.

Lemma after_calls_found arts v ds n :
  after_calls n {| articles := arts; verbose := v; deadlines := ds |}
    = {| articles := arts; verbose := v;
         deadlines := ds ++ concat (replicate n (found arts)) |}.
Proof.
  revert ds; induction n as [|n IH]; intros ds; cbn.
  - by rewrite app_nil_r.
  - rewrite analyze_deadlines_state, extract_deadlines_found, IH.
    by rewrite <- app_assoc.
Qed.

(** The analyzer that the next run scores, after [n] earlier runs. *)
Lemma extract_after_calls arts v n :
  _extract_deadlines (after_calls n (__init__ arts v))
    = {| articles := arts; verbose := v;
         deadlines := concat (replicate n (found arts)) ++ found arts |}.
Proof.
  unfold __init__. by rewrite after_calls_found, extract_deadlines_found.
Qed.

Lemma first_found_58_2 arts :
  List.find (λ d, bool_decide (article d = "58(2)")) (found arts)
    = if has_four_months arts then Some deadline_58_2 else None.
Proof.
  unfold found.
  destruct (has_four_months arts), (has_six_months arts), (has_four_years arts);
    reflexivity.
Qed.

Lemma first_found_143_i arts :
  List.find (λ d, bool_decide (article d = "143(i)")) (found arts)
    = if has_six_months arts then Some deadline_143_i else None.
Proof.
  unfold found.
  destruct (has_four_months arts), (has_six_months arts), (has_four_years arts);
    reflexivity.
Qed.

Lemma first_found_28 arts :
  List.find (λ d, bool_decide (article d = "28")) (found arts)
    = if has_four_years arts then Some deadline_28 else None.
Proof.
  unfold found.
  destruct (has_four_months arts), (has_six_months arts), (has_four_years arts);
    reflexivity.
Qed.

Lemma first_deadline_copies a arts v n :
  first_deadline a {| articles := arts; verbose := v;
                      deadlines := concat (replicate n (found arts)) ++ found arts |}
    = List.find (λ d, bool_decide (article d = a)) (found arts).
Proof. unfold first_deadline; cbn. apply find_copies. Qed.

(** The three sub-scores and the conflicts of a run, after any number of
    earlier runs, in terms of the phrase tests. *)
Lemma clarity_closed arts v n :
  _score_deadline_clarity (_extract_deadlines (after_calls n (__init__ arts v)))
    = (if has_four_months arts then 2 else 0)
      + (if has_six_months arts then 2 else 0)
      + (if has_four_years arts then 1 else 0).
Proof.
  rewrite extract_after_calls. unfold _score_deadline_clarity.
  rewrite !list_in_first_deadline, !first_deadline_copies.
  rewrite first_found_58_2, first_found_143_i, first_found_28.
  destruct (has_four_months arts), (has_six_months arts), (has_four_years arts);
    reflexivity.
Qed.

Lemma consistency_closed arts v n :
  _check_timeline_consistency (_extract_deadlines (after_calls n (__init__ arts v)))
    = if has_six_months arts
      then if has_four_years arts
           then (1, [timeline_mismatch deadline_143_i deadline_28; implicit_connection])
           else (6, [implicit_connection])
      else (8, []).
Proof.
  rewrite extract_after_calls. unfold _check_timeline_consistency.
  rewrite !first_deadline_copies, first_found_143_i, first_found_28.
  destruct (has_six_months arts), (has_four_years arts); reflexivity.
Qed.

Lemma implication_closed arts v n :
  _score_implication_strength (_extract_deadlines (after_calls n (__init__ arts v)))
    = if has_six_months arts
      then Z.max ((if has_single_dividend arts then 2 else 0)
                  + (if has_examination_completed arts then 1 else 0)
                  - (if Py.dict_in "28" arts then 1 else 0)) 0
      else 0.
Proof.
  rewrite extract_after_calls. unfold _score_implication_strength.
  rewrite first_deadline_copies, first_found_143_i.
  destruct (has_six_months arts) eqn:Hsix; [|reflexivity].
  unfold has_single_dividend, has_examination_completed; cbn.
  destruct (arts !! "143") as [a143|]; destruct (arts !! "27") as [a27|];
    repeat match goal with
           | |- context [if ?b then _ else _] => destruct b
           end; reflexivity.
Qed.

End TimelineClosedForm.

Section TimelineExtras.
Import TimelineAnalyzer.

Implicit Types (arts : gmap string LegalParser.LegalArticle).

Lemma timeline_score_closed arts v n :
  score (analyze_deadlines (after_calls n (__init__ arts v))).1
    = ((if has_four_months arts then 2 else 0)
       + (if has_six_months arts then 2 else 0)
       + (if has_four_years arts then 1 else 0))
      + (if has_six_months arts then if has_four_years arts then 1 else 6 else 8)
      + (if has_six_months arts
         then Z.max ((if has_single_dividend arts then 2 else 0)
                     + (if has_examination_completed arts then 1 else 0)
                     - (if Py.dict_in "28" arts then 1 else 0)) 0
         else 0).
Proof.
  rewrite analyze_deadlines_score, clarity_closed, consistency_closed,
    implication_closed.
  destruct (has_six_months arts), (has_four_years arts); reflexivity.
Qed.

(** The four-year deadline is extracted from article 28 only. *)
Lemma has_four_years_loaded arts :
  has_four_years arts = true → Py.dict_in "28" arts = true.
Proof.
  unfold has_four_years, Py.dict_in. intros H.
  apply bool_decide_eq_true_2. destruct (arts !! "28"); [by eexists|done].
Qed.

Lemma timeline_score_range arts v n :
  4 ≤ score (analyze_deadlines (after_calls n (__init__ arts v))).1 ≤ 13.
Proof.
  rewrite timeline_score_closed.
  pose proof (has_four_years_loaded arts) as H28.
  destruct (has_four_months arts), (has_six_months arts), (has_four_years arts),
    (has_single_dividend arts), (has_examination_completed arts),
    (Py.dict_in "28" arts); try (specialize (H28 eq_refl)); lia.
Qed.

(** X1.  On an analyzer built from any articles, after any number of earlier
    runs, the timeline score lies between 4 and 13; both ends are reached,
    so the 20 points it is scored out of are never approached. *)
Theorem timeline_score_between_4_and_13 :
  (∀ arts v n,
     4 ≤ score (analyze_deadlines (after_calls n (__init__ arts v))).1 ≤ 13) ∧
  score (analyze_deadlines (__init__ Examples.scenario_B false)).1 = 4 ∧
  score (analyze_deadlines (__init__ Examples.scenario_timeline_max false)).1 = 13.
Proof.
  split; [apply timeline_score_range|].
  split; vm_compute; reflexivity.
Qed.

(** X2.  Every run of [analyze_deadlines] on the same analyzer returns the
    score, the score breakdown and the conflicts of the first run; only the
    deadlines differ: run [n + 1] returns the deadlines of the first run
    [n + 1] times over. *)
Theorem analyze_deadlines_repeated arts v n :
  let first := (analyze_deadlines (__init__ arts v)).1 in
  let later := (analyze_deadlines (after_calls n (__init__ arts v))).1 in
  score later = score first ∧
  score_breakdown later = score_breakdown first ∧
  conflicts later = conflicts first ∧
  result_deadlines later = concat (replicate (S n) (result_deadlines first)) ∧
  length (result_deadlines later) = (S n * length (result_deadlines first))%nat.
Proof.
  intros first later. subst first later.
  pose proof (timeline_score_closed arts v 0) as Hs0.
  pose proof (clarity_closed arts v 0) as Hc0.
  pose proof (consistency_closed arts v 0) as Ht0.
  pose proof (implication_closed arts v 0) as Hi0.
  pose proof (extract_after_calls arts v 0) as He0.
  cbn [after_calls] in Hs0, Hc0, Ht0, Hi0, He0.
  assert (result_deadlines (analyze_deadlines (after_calls n (__init__ arts v))).1
          = concat (replicate (S n)
              (result_deadlines (analyze_deadlines (__init__ arts v)).1))) as Hd.
  { rewrite !analyze_deadlines_result_deadlines, extract_after_calls, He0. cbn.
    rewrite copies_comm, fmap_app, fmap_copies. reflexivity. }
  repeat split.
  - by rewrite timeline_score_closed, Hs0.
  - by rewrite !analyze_deadlines_breakdown, clarity_closed,
      consistency_closed, implication_closed, Hc0, Ht0, Hi0.
  - by rewrite !analyze_deadlines_conflicts, consistency_closed, Ht0.
  - exact Hd.
  - rewrite Hd. generalize (result_deadlines
      (analyze_deadlines (__init__ arts v)).1) as l.
    intros l. clear. induction n as [|n IH]; cbn in *.
    + by rewrite app_nil_r, Nat.add_0_r.
    + rewrite length_app, IH. reflexivity.
Qed.

(** X3.  The timeline battery as a function of the articles, after any
    number of earlier runs: clarity is 2 for the four-month phrase of 58
    plus 2 for the six-month phrase of 143 plus 1 for a four-year phrase of
    28; consistency is 8 without the six-month phrase, 6 with it alone and 1
    with a four-year phrase as well, with the implicit-connection conflict
    and the timeline mismatch recorded accordingly; implication strength is
    0 without the six-month phrase and otherwise 2 for the single-dividend
    phrase plus 1 for the examination phrase of 27 minus 1 when 28 is
    loaded, not below 0.  The caps of clarity and consistency never bind. *)
Theorem timeline_battery_closed_form arts v n :
  let r := (analyze_deadlines (after_calls n (__init__ arts v))).1 in
  deadline_clarity (score_breakdown r)
    = (if has_four_months arts then 2 else 0)
      + (if has_six_months arts then 2 else 0)
      + (if has_four_years arts then 1 else 0) ∧
  consistency (score_breakdown r)
    = (if has_six_months arts then if has_four_years arts then 1 else 6 else 8) ∧
  conflicts r
    = (if has_six_months arts
       then if has_four_years arts
            then [timeline_mismatch deadline_143_i deadline_28; implicit_connection]
            else [implicit_connection]
       else []) ∧
  implication_strength (score_breakdown r)
    = (if has_six_months arts
       then Z.max ((if has_single_dividend arts then 2 else 0)
                   + (if has_examination_completed arts then 1 else 0)
                   - (if Py.dict_in "28" arts then 1 else 0)) 0
       else 0) ∧
  score r = deadline_clarity (score_breakdown r) + consistency (score_breakdown r)
            + implication_strength (score_breakdown r).
Proof.
  intros r. subst r.
  rewrite analyze_deadlines_breakdown, analyze_deadlines_conflicts,
    analyze_deadlines_score; cbn.
  rewrite clarity_closed, consistency_closed, implication_closed.
  destruct (has_six_months arts), (has_four_years arts); repeat split.
Qed.

End TimelineExtras.

(** ** The logic battery, check by check *)

Section LogicExtras.
Import LogicValidator.

Lemma check_prohibition_description self :
  description (_check_prohibition_exists self)
    = "Άρθρο 103(2): Απαγόρευση τροποποίησης διατάξεων εξέτασης" ∧
  points_possible (_check_prohibition_exists self) = 8.
Proof.
  unfold _check_prohibition_exists.
  destruct (articles self !! "103") as [a|]; [|done].
  by destruct (prohibition_phrase _).
Qed.

Lemma check_regulation_143_description self :
  description (_check_regulation_143_modifications self)
    = "Κανονισμός 143: Τροποποίηση προθεσμίας σε 6 μήνες" ∧
  points_possible (_check_regulation_143_modifications self) = 7.
Proof.
  unfold _check_regulation_143_modifications.
  destruct (articles self !! "143") as [a|]; [|done].
  by destruct (Py.str_in "έξι μήνες" _), (Py.str_in "ένα μόνο μέρισμα" _),
    (Py.list_in "58" _).
Qed.

Lemma check_single_dividend_description self :
  description (_check_single_dividend_implication self)
    = "Ένα μόνο μέρισμα → Υποχρέωση αποκατάστασης;" ∧
  points_possible (_check_single_dividend_implication self) = 5 ∧
  supports_interpretation (_check_single_dividend_implication self) = false.
Proof.
  unfold _check_single_dividend_implication.
  destruct (articles self !! "143") as [a|]; [|done].
  by destruct (Py.str_in _ _).
Qed.

(** The two buckets of [validate_interpretation], spelled out. *)
Lemma validate_interpretation_buckets self :
  let c1 := _check_prohibition_exists self in
  let c2 := _check_regulation_143_modifications self in
  supporting_factors (validate_interpretation self)
    = (if supports_interpretation c1 then [description c1] else [])
      ++ (if supports_interpretation c2 then [description c2] else []) ∧
  contradicting_factors (validate_interpretation self)
    = (if supports_interpretation c1 then [] else [description c1])
      ++ (if supports_interpretation c2 then [] else [description c2])
      ++ [description (_check_modification_equivalence self);
          description (_check_single_dividend_implication self)].
Proof.
  intros c1 c2. unfold validate_interpretation; cbn [supporting_factors
    contradicting_factors].
  destruct (check_single_dividend_description self) as (_ & _ & H4).
  fold c1 c2. rewrite !filter_cons, !filter_nil. rewrite H4.
  cbn [supports_interpretation _check_modification_equivalence].
  destruct (supports_interpretation c1), (supports_interpretation c2);
    repeat case_decide; try done.
Qed.

(** X4.  Evidence partition of the logic battery: every check's description
    lands in exactly one of the two buckets, the supporting one when the
    check supports the interpretation and the contradicting one otherwise;
    the bucket sizes add up to the four checks; the modification-equivalence
    and single-dividend checks are always contradicting, so at most two
    factors ever support. *)
Theorem logic_evidence_partition (self : instance) :
  let r := validate_interpretation self in
  length (checks r) = 4%nat ∧
  (length (supporting_factors r) + length (contradicting_factors r))%nat
    = length (checks r) ∧
  supporting_factors r ++ contradicting_factors r ≡ₚ description <$> checks r ∧
  (∀ c, c ∈ checks r →
     if supports_interpretation c
     then description c ∈ supporting_factors r ∧ description c ∉ contradicting_factors r
     else description c ∈ contradicting_factors r ∧ description c ∉ supporting_factors r) ∧
  description (_check_modification_equivalence self) ∈ contradicting_factors r ∧
  description (_check_single_dividend_implication self) ∈ contradicting_factors r ∧
  (length (supporting_factors r) ≤ 2)%nat.
Proof.
  intros r. subst r.
  destruct (validate_interpretation_buckets self) as [Hs Hc].
  rewrite Hs, Hc. clear Hs Hc.
  destruct (check_prohibition_description self) as [D1 _].
  destruct (check_regulation_143_description self) as [D2 _].
  destruct (check_single_dividend_description self) as (D4 & _ & S4).
  assert (checks (validate_interpretation self)
          = [_check_prohibition_exists self; _check_regulation_143_modifications self;
             _check_modification_equivalence self;
             _check_single_dividend_implication self]) as -> by reflexivity.
  assert (description (_check_modification_equivalence self)
          = "Τροποποίηση χρόνου μερίσματος = Τροποποίηση εξέτασης;") as D3
    by reflexivity.
  assert (supports_interpretation (_check_modification_equivalence self) = false)
    as S3 by reflexivity.
  rewrite D1, D2, D3, D4.
  destruct (supports_interpretation (_check_prohibition_exists self)) eqn:S1;
    destruct (supports_interpretation (_check_regulation_143_modifications self))
      eqn:S2; cbn [app length fmap list_fmap].
  all: rewrite D1, D2, D3, D4.
  all: split; [reflexivity|].
  all: split; [reflexivity|].
  all: split; [first [reflexivity | apply perm_swap]|].
  all: split;
    [|split; [|split];
      [ repeat (first [apply list_elem_of_here | apply list_elem_of_further])
      | repeat (first [apply list_elem_of_here | apply list_elem_of_further])
      | lia ]].
  all: intros c Hc;
    apply elem_of_cons in Hc as [->|Hc];
      [|apply elem_of_cons in Hc as [->|Hc];
        [|apply elem_of_cons in Hc as [->|Hc];
          [|apply list_elem_of_singleton in Hc as ->]]].
  all: rewrite ?S1, ?S2, ?S3, ?S4, ?D1, ?D2, ?D3, ?D4.
  all: split;
    [ repeat (first [apply list_elem_of_here | apply list_elem_of_further])
    | rewrite ?elem_of_cons, ?elem_of_nil; intros H;
      repeat (destruct H as [H|H]; [discriminate H|]); done ].
Qed.

(** X5.  Every check of the logic battery awards between 0 and its possible
    points; the possible points are 8, 7, 10 and 5, which add up to the
    maximum of 30; the score is the sum of the awarded points. *)
Theorem logic_checks_within_possible (self : instance) :
  let r := validate_interpretation self in
  (∀ c, c ∈ checks r → 0 ≤ points_awarded c ≤ points_possible c) ∧
  points_possible <$> checks r = [8; 7; 10; 5] ∧
  sum_points (points_possible <$> checks r) = max_score r ∧
  score r = sum_points (points_awarded <$> checks r).
Proof.
  intros r. subst r.
  destruct (check_prohibition_description self) as [_ P1].
  destruct (check_regulation_143_description self) as [_ P2].
  destruct (check_single_dividend_description self) as (_ & P4 & _).
  pose proof (check_prohibition_points self) as H1.
  pose proof (check_regulation_143_points self) as H2.
  pose proof (check_single_dividend_points self) as H4.
  assert (checks (validate_interpretation self)
          = [_check_prohibition_exists self; _check_regulation_143_modifications self;
             _check_modification_equivalence self;
             _check_single_dividend_implication self]) as -> by reflexivity.
  split; [|split; [|split]].
  - intros c Hc.
    apply elem_of_cons in Hc as [->|Hc];
      [|apply elem_of_cons in Hc as [->|Hc];
        [|apply elem_of_cons in Hc as [->|Hc];
          [|apply list_elem_of_singleton in Hc as ->]]].
    + rewrite P1. set_unfold. lia.
    + rewrite P2. lia.
    + cbn. lia.
    + rewrite P4. set_unfold. lia.
  - cbn [fmap list_fmap]. by rewrite P1, P2, P4.
  - cbn [fmap list_fmap]. rewrite P1, P2, P4. reflexivity.
  - unfold validate_interpretation, sum_points; cbn. lia.
Qed.

(** X6.  The regulation-143 check awards 3 points for the six-month phrase,
    2 for the single-dividend phrase and 2 when 143 lists 58 among its
    references, with one line of evidence per signal; it supports the
    interpretation exactly when the six-month phrase comes with at least one
    of the other two signals, and it awards nothing when 143 is not
    loaded. *)
Theorem check_regulation_143_signals (self : instance) :
  let c := _check_regulation_143_modifications self in
  let arts := articles self in
  points_awarded c
    = (if has_six_months arts then 3 else 0)
      + (if has_single_dividend arts then 2 else 0)
      + (if cites_58 arts then 2 else 0) ∧
  supports_interpretation c
    = has_six_months arts && (has_single_dividend arts || cites_58 arts) ∧
  length (evidence c)
    = ((if has_six_months arts then 1 else 0)
       + (if has_single_dividend arts then 1 else 0)
       + (if cites_58 arts then 1 else 0))%nat ∧
  (points_awarded c = 7
   ↔ has_six_months arts = true ∧ has_single_dividend arts = true
     ∧ cites_58 arts = true) ∧
  (arts !! "143" = None → points_awarded c = 0 ∧ evidence c = []).
Proof.
  intros c arts. subst c arts.
  unfold _check_regulation_143_modifications, has_six_months,
    has_single_dividend, cites_58.
  destruct (articles self !! "143") as [a|]; cbn.
  - destruct (Py.str_in "έξι μήνες" _), (Py.str_in "ένα μόνο μέρισμα" _),
      (Py.list_in "58" _); cbn; repeat split; try done; try lia;
      intros; intuition (try discriminate; try lia).
  - repeat split; try done; try lia; intros; intuition discriminate.
Qed.

(** X7.  The prohibition check awards 8 points and supports the
    interpretation exactly when article 103 is loaded and one of its
    critical phrases holds both the prohibition phrase and the word for
    examination; its evidence then quotes the first such phrase.  With 103
    loaded and no such phrase it awards the fallback of 3 points, whatever
    the constraints of 103 are; with 103 not loaded it awards 0. *)
Theorem check_prohibition_cases (self : instance) :
  let c := _check_prohibition_exists self in
  match articles self !! "103" with
  | None =>
      points_awarded c = 0 ∧ supports_interpretation c = false ∧ evidence c = []
  | Some art103 =>
      match prohibition_phrase (LegalParser.critical_phrases art103) with
      | Some phrase =>
          points_awarded c = 8 ∧ supports_interpretation c = true ∧
          evidence c = ["Κείμενο: " +:+ Py.dquote +:+ phrase +:+ Py.dquote] ∧
          phrase ∈ LegalParser.critical_phrases art103 ∧
          Py.str_in "δεν επιτρέπει την τροποποίηση" phrase = true ∧
          Py.str_in "εξέταση" phrase = true
      | None =>
          points_awarded c = 3 ∧ supports_interpretation c = false ∧
          evidence c = [] ∧
          ∀ phrase, phrase ∈ LegalParser.critical_phrases art103 →
            Py.str_in "δεν επιτρέπει την τροποποίηση" phrase
              && Py.str_in "εξέταση" phrase = false
      end
  end ∧
  (supports_interpretation c = true ↔ points_awarded c = 8).
Proof.
  intros c. subst c. unfold _check_prohibition_exists.
  destruct (articles self !! "103") as [art103|]; cbn; [|by intuition].
  unfold prohibition_phrase.
  destruct (List.find _ _) as [phrase|] eqn:Hf; cbn.
  - apply find_some in Hf as [Hin Hb].
    apply andb_true_iff in Hb as [Hb1 Hb2].
    repeat split; try done. by apply list_elem_of_In.
  - repeat split; try done.
    intros phrase Hin%list_elem_of_In.
    apply (find_none _ _ Hf _ Hin).
Qed.

End LogicExtras.

(** ** The aggregated score of the whole pipeline *)

Section PipelineExtras.

Implicit Types (arts : gmap string LegalParser.LegalArticle).

Lemma text_support_closed (self : FactChecker.instance) :
  FactChecker._score_text_support self
    = (if has_prohibition_text (FactChecker.articles self) then 15 else 0)
      + (if has_six_months (FactChecker.articles self) then 6 else 0)
      + (if has_single_dividend (FactChecker.articles self) then 6 else 0)
      + (if has_examination_completed (FactChecker.articles self) then 8 else 0)
      + (if names_58 (FactChecker.articles self) then 5 else 0).
Proof.
  unfold FactChecker._score_text_support, has_prohibition_text, has_six_months,
    has_single_dividend, has_examination_completed, names_58.
  destruct (FactChecker.articles self !! "103") as [a103|];
    destruct (FactChecker.articles self !! "143") as [a143|];
    destruct (FactChecker.articles self !! "27") as [a27|];
    destruct (FactChecker.articles self !! "58") as [a58|];
    repeat match goal with
           | |- context [if ?b then _ else _] => destruct b
           end; reflexivity.
Qed.

Lemma logic_score_closed (self : LogicValidator.instance) :
  LogicValidator.score (LogicValidator.validate_interpretation self)
    = LogicValidator.points_awarded (LogicValidator._check_prohibition_exists self)
      + ((if has_six_months (LogicValidator.articles self) then 3 else 0)
         + (if has_single_dividend (LogicValidator.articles self) then 2 else 0)
         + (if cites_58 (LogicValidator.articles self) then 2 else 0))
      + 4
      + (if has_single_dividend (LogicValidator.articles self) then 2 else 0).
Proof.
  unfold LogicValidator.validate_interpretation; cbn [LogicValidator.score].
  unfold LogicValidator._check_regulation_143_modifications,
    LogicValidator._check_single_dividend_implication,
    has_six_months, has_single_dividend, cites_58.
  destruct (LogicValidator.articles self !! "143") as [a143|]; cbn.
  - destruct (Py.str_in "έξι μήνες" _), (Py.str_in "ένα μόνο μέρισμα" _),
      (Py.list_in "58" _); cbn; lia.
  - lia.
Qed.

(** The score [main] computes, with the intermediate objects named. *)
Lemma final_score_unfold arts reasoning v :
  Main.final_score arts reasoning v
    = FactChecker.calculate_score
        (FactChecker.__init__ arts
           (LogicValidator.validate_interpretation
              (LogicValidator.__init__ arts
                 (CrossReferenceAnalyzer.build_graph
                    (CrossReferenceAnalyzer.__init__ arts v)).1 v))
           (TimelineAnalyzer.analyze_deadlines (TimelineAnalyzer.__init__ arts v)).1
           (reasoning arts
              (CrossReferenceAnalyzer.build_graph
                 (CrossReferenceAnalyzer.__init__ arts v)).1)
           v).
Proof.
  unfold Main.final_score. cbn [CrossReferenceAnalyzer.build_graph fst].
  by destruct (TimelineAnalyzer.analyze_deadlines _).
Qed.

Lemma final_score_total arts reasoning v :
  FactChecker.total (Main.final_score arts reasoning v)
    = ((if has_prohibition_text arts then 15 else 0)
       + (if has_six_months arts then 6 else 0)
       + (if has_single_dividend arts then 6 else 0)
       + (if has_examination_completed arts then 8 else 0)
       + (if names_58 arts then 5 else 0))
      + LogicValidator.score
          (LogicValidator.validate_interpretation
             (LogicValidator.__init__ arts
                (CrossReferenceAnalyzer.build_graph
                   (CrossReferenceAnalyzer.__init__ arts v)).1 v))
      + TimelineAnalyzer.score
          (TimelineAnalyzer.analyze_deadlines (TimelineAnalyzer.__init__ arts v)).1
      + 5.
Proof.
  rewrite final_score_unfold.
  unfold FactChecker.calculate_score; cbn [FactChecker.total].
  rewrite text_support_closed. reflexivity.
Qed.

Lemma final_score_total_range arts reasoning v :
  17 ≤ FactChecker.total (Main.final_score arts reasoning v) ≤ 79.
Proof.
  rewrite final_score_total, logic_score_closed.
  pose proof (timeline_score_closed arts v 0) as Ht. cbn [TimelineAnalyzer.after_calls] in Ht.
  rewrite Ht. clear Ht.
  pose proof (check_prohibition_points
                (LogicValidator.__init__ arts
                   (CrossReferenceAnalyzer.build_graph
                      (CrossReferenceAnalyzer.__init__ arts v)).1 v)) as H1.
  set (p1 := LogicValidator.points_awarded _) in *.
  assert (0 ≤ p1 ≤ 8) as Hp1 by (clearbody p1; set_unfold; lia).
  clearbody p1. clear H1.
  cbn [LogicValidator.articles LogicValidator.__init__].
  pose proof (has_four_years_loaded arts) as H28.
  destruct (has_prohibition_text arts), (has_four_months arts),
    (has_six_months arts), (has_four_years arts), (has_single_dividend arts),
    (has_examination_completed arts), (names_58 arts), (cites_58 arts),
    (Py.dict_in "28" arts); try (specialize (H28 eq_refl)); lia.
Qed.

(** X8.  The total [main] computes for any articles and any reasoning
    result lies between 17 and 79, and both ends are reached (no article
    loaded; every signal present).  So the category is never "strongly
    supported", and a total of 70 or more, for which [main] prints the
    strong-basis line, always comes with the category "moderately
    supported". *)
Theorem pipeline_total_between_17_and_79 :
  (∀ arts reasoning v,
     let s := Main.final_score arts reasoning v in
     17 ≤ FactChecker.total s ≤ 79 ∧
     FactChecker.category s ≠ "Ισχυρά Υποστηριζόμενη / Strongly Supported" ∧
     (Main.closing_line (FactChecker.total s) = "✓ Η ερμηνεία έχει ισχυρή νομική βάση"
      → FactChecker.category s = "Μετρίως Υποστηριζόμενη / Moderately Supported")) ∧
  FactChecker.total (Main.final_score ∅ (λ _ _, Examples.no_reasoning) false) = 17 ∧
  FactChecker.total
    (Main.final_score Examples.scenario_total_max (λ _ _, Examples.no_reasoning) false)
    = 79.
Proof.
  split; [|split; vm_compute; reflexivity].
  intros arts reasoning v s.
  pose proof (final_score_total_range arts reasoning v) as Hr. fold s in Hr.
  assert (FactChecker.category s
          = FactChecker._determine_category
              (FactChecker.__init__ arts
                 (LogicValidator.validate_interpretation
                    (LogicValidator.__init__ arts
                       (CrossReferenceAnalyzer.build_graph
                          (CrossReferenceAnalyzer.__init__ arts v)).1 v))
                 (TimelineAnalyzer.analyze_deadlines
                    (TimelineAnalyzer.__init__ arts v)).1
                 (reasoning arts
                    (CrossReferenceAnalyzer.build_graph
                       (CrossReferenceAnalyzer.__init__ arts v)).1) v)
              (FactChecker.total s)) as Hcat.
  { subst s. rewrite final_score_unfold. reflexivity. }
  split; [exact Hr|]. rewrite Hcat.
  unfold FactChecker._determine_category, Main.closing_line.
  split.
  - rewrite (bool_decide_eq_false_2 (80 ≤ _)) by lia.
    repeat case_bool_decide; discriminate.
  - rewrite (bool_decide_eq_false_2 (80 ≤ _)) by lia.
    repeat case_bool_decide; try done; try lia.
Qed.

(** X9.  The text-support score is the plain sum of its five signals: 15
    for the prohibition text of 103, 6 each for the six-month and
    single-dividend phrases of 143, 8 for the examination phrase of 27 and
    5 when 58 is loaded and named in the text of 143.  The cap at 40 never
    binds, and 40 is reached exactly when all five signals are present. *)
Theorem text_support_is_sum_of_signals (self : FactChecker.instance) :
  let arts := FactChecker.articles self in
  FactChecker._score_text_support self
    = (if has_prohibition_text arts then 15 else 0)
      + (if has_six_months arts then 6 else 0)
      + (if has_single_dividend arts then 6 else 0)
      + (if has_examination_completed arts then 8 else 0)
      + (if names_58 arts then 5 else 0) ∧
  (FactChecker._score_text_support self = 40
   ↔ has_prohibition_text arts = true ∧ has_six_months arts = true
     ∧ has_single_dividend arts = true ∧ has_examination_completed arts = true
     ∧ names_58 arts = true) ∧
  (arts = ∅ → FactChecker._score_text_support self = 0).
Proof.
  intros arts. subst arts. rewrite text_support_closed.
  split; [reflexivity|]. split.
  - destruct (has_prohibition_text _), (has_six_months _), (has_single_dividend _),
      (has_examination_completed _), (names_58 _);
      split; intros H; try lia; try done; intuition discriminate.
  - intros ->. reflexivity.
Qed.

End PipelineExtras.

(** ** The built graph and the queries on it *)

Section GraphExtras.
Import LegalParser NX CrossReferenceAnalyzer.

Implicit Types (G : DiGraph) (arts : gmap string LegalArticle).

Lemma curated_is_Some nodes u w :
  is_Some (curated nodes (u, w))
  ↔ (u, w) ∈ interpretation_pairs ∧ is_Some (nodes !! u) ∧ is_Some (nodes !! w).
Proof.
  unfold curated, interpretation_pairs. cbv zeta. split.
  - intros [k Hk]. revert Hk.
    repeat match goal with
           | |- context [if ?b then _ else _] => destruct b eqn:?
           end; intros Hk; try discriminate Hk.
    all: repeat match goal with
                | H : _ && _ = true |- _ => apply andb_true_iff in H as [? ?]
                end.
    all: repeat match goal with
                | H : bool_decide _ = true |- _ => apply bool_decide_eq_true in H
                end.
    all: match goal with H : (_, _) = (_, _) |- _ => injection H as <- <- end.
    all: split; [|done].
    all: repeat (first [apply list_elem_of_here | apply list_elem_of_further]).
  - intros (Hin & Hu & Hw).
    rewrite !elem_of_cons, elem_of_nil in Hin.
    destruct Hin as [H|[H|[H|[H|[]]]]]; injection H as -> ->.
    all: rewrite ?(bool_decide_eq_true_2 _ Hu), ?(bool_decide_eq_true_2 _ Hw).
    all: repeat (first [ rewrite bool_decide_eq_true_2 by done
                       | rewrite bool_decide_eq_false_2 by done ]).
    all: rewrite ?andb_false_r; cbn; by eexists.
Qed.

Lemma has_node_build arts G n :
  has_node (build_graph_on arts G) n = Py.dict_in n arts || has_node G n.
Proof.
  unfold has_node, Py.dict_in. rewrite build_graph_on_nodes.
  destruct (arts !! n) as [a|].
  - by rewrite !(bool_decide_eq_true_2 (is_Some (Some _))) by (by eexists).
  - by rewrite (bool_decide_eq_false_2 (is_Some None)) by (by intros [? ?]).
Qed.

Lemma has_node_build_new arts n :
  has_node (build_graph_on arts NX.empty) n = Py.dict_in n arts.
Proof.
  rewrite has_node_build. unfold has_node.
  change (_node NX.empty !! n) with (@lookup _ _ (gmap string NodeData) _ n ∅).
  rewrite lookup_empty.
  rewrite (bool_decide_eq_false_2 (is_Some None)) by (by intros [? ?]).
  apply orb_false_r.
Qed.

Lemma build_new_edge arts u w :
  is_Some (_adj (build_graph_on arts NX.empty) !! (u, w))
  ↔ is_reference arts (u, w)
    ∨ ((u, w) ∈ interpretation_pairs ∧ is_Some (arts !! u) ∧ is_Some (arts !! w)).
Proof.
  rewrite build_graph_on_adj, empty_adj.
  assert (∀ n, is_Some (_node (build_graph_on arts NX.empty) !! n)
               ↔ is_Some (arts !! n)) as Hn.
  { intros n. rewrite build_graph_on_nodes. cbn. rewrite lookup_empty.
    destruct (arts !! n); split; intros [? ?]; by eauto. }
  pose proof (curated_is_Some (_node (build_graph_on arts NX.empty)) u w) as Hc.
  rewrite !Hn in Hc.
  destruct (curated _ (u, w)) as [kind|].
  - split; [intros _; right; apply Hc; by eexists|by eexists].
  - case_bool_decide as Hr.
    + split; [by left|by eexists].
    + split; [by intros [? ?]|].
      intros [?|Hp]; [done|]. apply Hc in Hp as [? ?]. done.
Qed.

Lemma build_new_edge_loaded arts u w :
  is_Some (_adj (build_graph_on arts NX.empty) !! (u, w)) →
  is_Some (arts !! u) ∧ is_Some (arts !! w).
Proof.
  intros [Hr|(_ & Hu & Hw)]%build_new_edge; [|done].
  apply is_reference_spec in Hr as (a & Ha & _ & Hw). split; [by eexists|done].
Qed.

(** X10.  The graph a new analyzer builds: its nodes are the loaded
    articles, each with its title, constraint flag and key terms; there is
    an edge from [u] to [w] exactly when [u] is loaded and lists the loaded
    article [w] among its references, or when [(u, w)] is one of the four
    interpretation pairs and both are loaded.  References to articles that
    are not loaded leave no edge and no node, and every edge joins two
    loaded articles. *)
Theorem built_graph_nodes_and_edges arts v :
  let G := (build_graph (__init__ arts v)).1 in
  (∀ n, _node G !! n = node_attrs <$> arts !! n) ∧
  dom (_node G) = dom arts ∧
  (∀ u w, has_edge G u w = true
          ↔ (∃ a, arts !! u = Some a ∧ w ∈ references_to a ∧ is_Some (arts !! w))
            ∨ ((u, w) ∈ interpretation_pairs
               ∧ is_Some (arts !! u) ∧ is_Some (arts !! w))) ∧
  (∀ u w, has_edge G u w = true → has_node G u = true ∧ has_node G w = true) ∧
  (∀ u w, arts !! w = None → has_edge G u w = false ∧ has_node G w = false).
Proof.
  intros G. subst G. cbn [build_graph fst __init__ graph articles].
  assert (∀ n, _node (build_graph_on arts NX.empty) !! n = node_attrs <$> arts !! n)
    as Hn.
  { intros n. rewrite build_graph_on_nodes. cbn. rewrite lookup_empty.
    by destruct (arts !! n). }
  split; [exact Hn|]. split.
  { apply set_eq. intros n. rewrite !elem_of_dom, Hn.
    by rewrite fmap_is_Some. }
  split; [|split].
  - intros u w. unfold has_edge. rewrite bool_decide_eq_true, build_new_edge.
    by rewrite is_reference_spec.
  - intros u w Hedge. unfold has_edge in Hedge.
    apply bool_decide_eq_true in Hedge.
    apply build_new_edge_loaded in Hedge as [Hu Hw].
    rewrite !has_node_build_new. unfold Py.dict_in.
    split; by apply bool_decide_eq_true_2.
  - intros u w Hw. split.
    + unfold has_edge. apply bool_decide_eq_false_2.
      intros [_ Hs]%build_new_edge_loaded. rewrite Hw in Hs. by destruct Hs.
    + rewrite has_node_build_new. unfold Py.dict_in.
      apply bool_decide_eq_false_2. rewrite Hw. by intros [? ?].
Qed.

(** The two links [validate_article_chain] checks are interpretation edges:
    [build_graph] adds them whenever their end points are nodes. *)
Lemma build_link_103_143 arts G :
  has_node (build_graph_on arts G) "103" = true →
  has_node (build_graph_on arts G) "143" = true →
  has_edge (build_graph_on arts G) "103" "143" = true.
Proof.
  unfold has_node, has_edge. intros H103 H143.
  apply bool_decide_eq_true_2.
  rewrite build_graph_on_adj. unfold curated. rewrite H103, H143.
  rewrite (bool_decide_eq_false_2 (("28", "27") = ("103", "143"))) by done.
  rewrite (bool_decide_eq_false_2 (("27", "16") = ("103", "143"))) by done.
  rewrite (bool_decide_eq_false_2 (("143", "58") = ("103", "143"))) by done.
  rewrite (bool_decide_eq_true_2 (("103", "143") = ("103", "143"))) by done.
  rewrite !andb_false_r. by eexists.
Qed.

Lemma build_link_143_58 arts G :
  has_node (build_graph_on arts G) "143" = true →
  has_node (build_graph_on arts G) "58" = true →
  has_edge (build_graph_on arts G) "143" "58" = true.
Proof.
  unfold has_node, has_edge. intros H143 H58.
  apply bool_decide_eq_true_2.
  rewrite build_graph_on_adj. unfold curated. rewrite H143, H58.
  rewrite (bool_decide_eq_false_2 (("28", "27") = ("143", "58"))) by done.
  rewrite (bool_decide_eq_false_2 (("27", "16") = ("143", "58"))) by done.
  rewrite (bool_decide_eq_true_2 (("143", "58") = ("143", "58"))) by done.
  rewrite !andb_false_r. by eexists.
Qed.

(** X11.  [validate_article_chain] finds no break in a graph returned by
    [build_graph], whatever the analyzer held before and whatever articles
    the validator is given; on a graph that has the nodes 103 and 143 but
    no edge, it reports the break. *)
Theorem validate_article_chain_on_built_graph :
  (∀ (self : instance) arts' v',
     let G := (build_graph self).1 in
     let r := LogicValidator.validate_article_chain (LogicValidator.__init__ arts' G v') in
     LogicValidator.valid r = true ∧ LogicValidator.breaks r = []) ∧
  (let G := add_article_nodes Examples.scenario_143_58
              (add_node "103" no_node_data NX.empty) in
   let r := LogicValidator.validate_article_chain (LogicValidator.__init__ ∅ G false) in
   LogicValidator.valid r = false ∧
   LogicValidator.breaks r = [("103", "143"); ("143", "58")]).
Proof.
  split; [|split; vm_compute; reflexivity].
  intros self arts' v' G r. subst r G.
  cbn [build_graph fst]. unfold LogicValidator.validate_article_chain.
  cbn [LogicValidator.graph LogicValidator.__init__].
  pose proof (build_link_103_143 (articles self) (graph self)) as L1.
  pose proof (build_link_143_58 (articles self) (graph self)) as L2.
  destruct (has_node _ "103"), (has_node _ "143"), (has_node _ "58"); cbn [andb];
    rewrite ?L1, ?L2 by reflexivity; split; reflexivity.
Qed.

(** X12.  [find_interpretation_chain] returns the nodes among 103, 143, 58,
    27, 28 and 16, in that order, and appends the chain to [self.chains]
    without touching the graph, so a second call records the same chain
    again.  After [build_graph] on a new analyzer the chain is the loaded
    articles among the six. *)
Theorem find_interpretation_chain_spec (self : instance) :
  let first := find_interpretation_chain self in
  let second := find_interpretation_chain first.2 in
  first.1 = filter (λ n, has_node (graph self) n = true) chain_candidates ∧
  graph first.2 = graph self ∧
  second.1 = first.1 ∧
  chains second.2
    = chains self ++ [("interpretation_chain", first.1);
                      ("interpretation_chain", first.1)] ∧
  (∀ arts v,
     (find_interpretation_chain (build_graph (__init__ arts v)).2).1
       = filter (λ n, is_Some (arts !! n)) chain_candidates).
Proof.
  intros first second. subst first second.
  assert (∀ s, (find_interpretation_chain s).1
               = filter (λ n, has_node (graph s) n = true) chain_candidates) as Hf.
  { intros s. unfold find_interpretation_chain, chain_candidates; cbn [fst].
    rewrite !filter_cons, filter_nil.
    destruct (has_node (graph s) "103"), (has_node (graph s) "143"),
      (has_node (graph s) "58"), (has_node (graph s) "27"),
      (has_node (graph s) "28"), (has_node (graph s) "16");
      repeat case_decide; try done. }
  split; [apply Hf|]. split; [reflexivity|]. split; [reflexivity|].
  split; [cbn; by rewrite <- app_assoc|].
  intros arts v. rewrite Hf. cbn [build_graph snd set_graph graph __init__ articles].
  apply list_filter_iff. intros n.
  rewrite has_node_build_new. unfold Py.dict_in. by rewrite bool_decide_eq_true.
Qed.

End GraphExtras.

Section DependencyExtras.
Import LegalParser NX CrossReferenceAnalyzer.

Implicit Types (G : DiGraph) (arts : gmap string LegalArticle).

Lemma successors_spec G n l w :
  successors G n = Py.Return l → (w ∈ l ↔ has_edge G n w = true).
Proof.
  unfold successors, has_edge, edges.
  destruct (has_node G n); [|discriminate]. intros [= <-].
  rewrite bool_decide_eq_true, list_elem_of_fmap. split.
  - intros ([[u w'] d] & -> & Hin). apply list_elem_of_filter in Hin as [Hu Hin].
    cbn in Hu. subst u. apply elem_of_map_to_list in Hin. by eexists.
  - intros [d Hd]. exists (n, w, d). split; [done|].
    apply list_elem_of_filter. split; [done|]. by apply elem_of_map_to_list.
Qed.

Lemma predecessors_spec G n l u :
  predecessors G n = Py.Return l → (u ∈ l ↔ has_edge G u n = true).
Proof.
  unfold predecessors, has_edge, edges.
  destruct (has_node G n); [|discriminate]. intros [= <-].
  rewrite bool_decide_eq_true, list_elem_of_fmap. split.
  - intros ([[u' w] d] & -> & Hin). apply list_elem_of_filter in Hin as [Hw Hin].
    cbn in Hw. subst w. apply elem_of_map_to_list in Hin. by eexists.
  - intros [d Hd]. exists (u, n, d). split; [done|].
    apply list_elem_of_filter. split; [done|]. by apply elem_of_map_to_list.
Qed.

Lemma get_article_dependencies_returns (self : instance) n :
  ∃ d, get_article_dependencies self n = Py.Return d
       ∧ (∀ w, w ∈ depends_on d
               ↔ has_node (graph self) n = true ∧ has_edge (graph self) n w = true)
       ∧ (∀ u, u ∈ depended_by d
               ↔ has_node (graph self) n = true ∧ has_edge (graph self) u n = true).
Proof.
  unfold get_article_dependencies.
  destruct (has_node (graph self) n) eqn:Hn.
  - pose proof (successors_spec (graph self) n) as Hs.
    pose proof (predecessors_spec (graph self) n) as Hp.
    unfold successors, predecessors in *. rewrite Hn in *. cbn.
    eexists. split; [reflexivity|]. cbn. split.
    + intros w. rewrite (Hs _ w eq_refl). tauto.
    + intros u. rewrite (Hp _ u eq_refl). tauto.
  - eexists. split; [reflexivity|]. cbn.
    split; intros x; rewrite elem_of_nil; split; [done| |done|]; by intros [? ?].
Qed.

(** X13.  [get_article_dependencies] never raises: for an id that is not a
    node it returns two empty lists, and for a node [n] its [depends_on]
    holds exactly the targets of the edges leaving [n] and its
    [depended_by] exactly the sources of the edges entering [n].  On the
    graph a new analyzer builds the two views agree: [w] is among the
    dependencies of [u] exactly when [u] is among the dependents of
    [w]. *)
Theorem get_article_dependencies_spec (self : instance) (n : string) :
  (∃ d, get_article_dependencies self n = Py.Return d
        ∧ (∀ w, w ∈ depends_on d
                ↔ has_node (graph self) n = true ∧ has_edge (graph self) n w = true)
        ∧ (∀ u, u ∈ depended_by d
                ↔ has_node (graph self) n = true ∧ has_edge (graph self) u n = true)) ∧
  (has_node (graph self) n = false →
   get_article_dependencies self n
     = Py.Return {| depends_on := []; depended_by := [] |}) ∧
  (∀ arts v u w du dw,
     let built := (build_graph (__init__ arts v)).2 in
     get_article_dependencies built u = Py.Return du →
     get_article_dependencies built w = Py.Return dw →
     (w ∈ depends_on du ↔ u ∈ depended_by dw)).
Proof.
  split; [apply get_article_dependencies_returns|]. split.
  - intros Hn. unfold get_article_dependencies. by rewrite Hn.
  - intros arts v u w du dw built Hu Hw.
    destruct (get_article_dependencies_returns built u) as (du' & Hu' & Hs & _).
    destruct (get_article_dependencies_returns built w) as (dw' & Hw' & _ & Hp).
    rewrite Hu in Hu'. rewrite Hw in Hw'. simplify_eq.
    rewrite Hs, Hp. subst built.
    cbn [build_graph snd set_graph graph __init__ articles].
    split; intros [_ He]; (split; [|done]).
    all: unfold has_edge in He; apply bool_decide_eq_true in He.
    all: apply build_new_edge_loaded in He as [Hlu Hlw].
    all: rewrite has_node_build_new; unfold Py.dict_in.
    all: by apply bool_decide_eq_true_2.
Qed.

(** The dependencies of regulation 143 in the example in which it cites 58,
    through the theorem. *)
Lemma get_article_dependencies_spec_witness :
  "58" ∈ depends_on {| depends_on := ["58"]; depended_by := [] |}
  ↔ "143" ∈ depended_by {| depends_on := []; depended_by := ["143"] |}.
Proof.
  destruct (get_article_dependencies_spec
              (__init__ Examples.scenario_143_58 false) "143") as (_ & _ & H).
  apply (H Examples.scenario_143_58 false "143" "58"); vm_compute; reflexivity.
Defined.

Lemma detect_conflicts_closed (self : instance) :
  detect_conflicts self
    = (if prohibition_met (articles self) then [prohibition_vs_modification] else [])
      ++ (if Py.dict_in "143" (articles self) && Py.dict_in "28" (articles self)
          then [timeline_inconsistency] else []).
Proof.
  unfold detect_conflicts, prohibition_met.
  destruct (articles self !! "103") as [a103|];
    destruct (articles self !! "143") as [a143|]; try reflexivity.
  by destruct (Py.list_in "prohibition" _ && Py.list_in "modification" _),
    (Py.dict_in "143" _ && Py.dict_in "28" _).
Qed.

Lemma prohibition_met_spec arts :
  prohibition_met arts = true
  ↔ ∃ a103 a143, arts !! "103" = Some a103 ∧ arts !! "143" = Some a143
                 ∧ "prohibition" ∈ constraints a103
                 ∧ "modification" ∈ key_terms a143.
Proof.
  unfold prohibition_met, Py.list_in.
  destruct (arts !! "103") as [a103|]; destruct (arts !! "143") as [a143|].
  - rewrite andb_true_iff, !bool_decide_eq_true. split.
    + intros [? ?]. by exists a103, a143.
    + by intros (? & ? & [= <-] & [= <-] & ? & ?).
  - split; [done|]. by intros (? & ? & _ & ? & _).
  - split; [done|]. by intros (? & ? & ? & _).
  - split; [done|]. by intros (? & ? & ? & _).
Qed.

(** X14.  [detect_conflicts] reads the articles only, not the graph.  It
    reports the prohibition-against-modification conflict exactly when 103
    and 143 are loaded, 103 carries the constraint [prohibition] and 143
    the key term [modification], and the timeline inconsistency exactly
    when 143 and 28 are loaded; it reports nothing else, at most two
    conflicts, each critical and naming two loaded articles, and nothing at
    all when 143 is not loaded. *)
Theorem detect_conflicts_spec (self : instance) :
  let cs := detect_conflicts self in
  let arts := articles self in
  (prohibition_vs_modification ∈ cs
   ↔ ∃ a103 a143, arts !! "103" = Some a103 ∧ arts !! "143" = Some a143
                  ∧ "prohibition" ∈ constraints a103
                  ∧ "modification" ∈ key_terms a143) ∧
  (timeline_inconsistency ∈ cs ↔ is_Some (arts !! "143") ∧ is_Some (arts !! "28")) ∧
  (∀ c, c ∈ cs →
     (c = prohibition_vs_modification ∨ c = timeline_inconsistency)
     ∧ conflict_critical c = true
     ∧ length (conflict_articles c) = 2%nat
     ∧ ∀ a, a ∈ conflict_articles c → is_Some (arts !! a)) ∧
  (length cs ≤ 2)%nat ∧
  (arts !! "143" = None → cs = []) ∧
  (∀ G, detect_conflicts (set_graph self G) = cs).
Proof.
  intros cs arts. subst cs arts.
  rewrite detect_conflicts_closed.
  pose proof (prohibition_met_spec (articles self)) as Hp.
  assert (Py.dict_in "143" (articles self) && Py.dict_in "28" (articles self) = true
          ↔ is_Some (articles self !! "143") ∧ is_Some (articles self !! "28")) as Ht.
  { unfold Py.dict_in. by rewrite andb_true_iff, !bool_decide_eq_true. }
  assert (prohibition_met (articles self) = true →
          is_Some (articles self !! "103") ∧ is_Some (articles self !! "143")) as Hl.
  { intros (a103 & a143 & H103 & H143 & _)%Hp. split; by eexists. }
  assert (prohibition_vs_modification ≠ timeline_inconsistency) as Hne by done.
  split; [|split; [|split; [|split; [|split]]]].
  - rewrite <- Hp. clear Hp Ht Hl.
    destruct (prohibition_met _), (_ && _); cbn [app];
      rewrite ?elem_of_cons, ?elem_of_nil;
      intuition (try done; try congruence).
  - rewrite <- Ht. clear Hp Ht Hl.
    destruct (prohibition_met _), (_ && _); cbn [app];
      rewrite ?elem_of_cons, ?elem_of_nil;
      intuition (try done; try congruence).
  - intros c Hc.
    assert ((c = prohibition_vs_modification ∧ prohibition_met (articles self) = true)
            ∨ (c = timeline_inconsistency
               ∧ Py.dict_in "143" (articles self) && Py.dict_in "28" (articles self)
                 = true)) as [[-> Hm]|[-> Hm]].
    { clear Hp Ht Hl.
      destruct (prohibition_met _), (_ && _); cbn [app] in Hc;
        rewrite ?elem_of_cons, ?elem_of_nil in Hc;
        intuition (try done; try congruence). }
    + split; [by left|]. split; [done|]. split; [done|].
      destruct (Hl Hm) as [H103 H143]. intros a Ha. cbn in Ha.
      rewrite !elem_of_cons, elem_of_nil in Ha. by destruct Ha as [->|[->|[]]].
    + split; [by right|]. split; [done|]. split; [done|].
      apply Ht in Hm as [H143 H28]. intros a Ha. cbn in Ha.
      rewrite !elem_of_cons, elem_of_nil in Ha. by destruct Ha as [->|[->|[]]].
  - destruct (prohibition_met _), (_ && _); cbn; lia.
  - intros H143.
    assert (prohibition_met (articles self) = false) as ->.
    { unfold prohibition_met. rewrite H143. by destruct (articles self !! "103"). }
    unfold Py.dict_in. rewrite H143.
    by rewrite (bool_decide_eq_false_2 (is_Some None)) by (by intros [? ?]).
  - intros G. by rewrite detect_conflicts_closed.
Qed.

Lemma analyze_article_103_fields (self : instance) :
  let r := analyze_article_103_constraint self in
  analysis_article r = "103" ∧
  constraint_text r
    = match articles self !! "103" with
      | Some a103 =>
          default "" (List.find (λ phrase, Py.str_in "δεν επιτρέπει" phrase)
                                (critical_phrases a103))
      | None => ""
      end ∧
  affects r
    = match articles self !! "103" with
      | Some _ => ["examination_provisions"; "discharge_provisions"]
      | None => []
      end ∧
  ambiguity_level r
    = match articles self !! "103" with
      | Some _ => if cites_58 (articles self) then "high" else ""
      | None => ""
      end ∧
  interpretation r
    = match articles self !! "103" with
      | Some _ =>
          if cites_58 (articles self)
          then "Κανονισμός 143 τροποποιεί προθεσμία μερίσματος (Άρθρο 58), " +:+
               "όχι απευθείας την εξέταση.  Ερώτημα: Αποτελεί αυτό έμμεση τροποποίηση;"
          else ""
      | None => ""
      end.
Proof.
  unfold analyze_article_103_constraint, cites_58.
  destruct (articles self !! "103") as [a103|]; [|done].
  destruct (articles self !! "143") as [a143|]; [|done].
  by destruct (Py.list_in "58" _).
Qed.

(** X15.  [analyze_article_103_constraint]: without article 103 every field
    but the article number is empty, the affected provisions included; with
    it, the two affected provisions are always listed, the constraint text
    is empty or the first critical phrase of 103 that holds the prohibition
    words, and the ambiguity level is "high", with an interpretation text,
    exactly when 143 is loaded and lists 58 among its references, and empty
    otherwise: no other level is ever returned. *)
Theorem analyze_article_103_constraint_spec (self : instance) :
  let r := analyze_article_103_constraint self in
  let arts := articles self in
  analysis_article r = "103" ∧
  (arts !! "103" = None →
     constraint_text r = "" ∧ affects r = [] ∧ interpretation r = ""
     ∧ ambiguity_level r = "") ∧
  (∀ a103, arts !! "103" = Some a103 →
     affects r = ["examination_provisions"; "discharge_provisions"]
     ∧ (constraint_text r = ""
        ∨ (constraint_text r ∈ critical_phrases a103
           ∧ Py.str_in "δεν επιτρέπει" (constraint_text r) = true))
     ∧ ((∀ phrase, phrase ∈ critical_phrases a103 →
           Py.str_in "δεν επιτρέπει" phrase = false)
        → constraint_text r = "")
     ∧ (ambiguity_level r = "high" ↔ cites_58 arts = true)) ∧
  (ambiguity_level r = "high" ∨ ambiguity_level r = "") ∧
  (ambiguity_level r = "" ↔ interpretation r = "").
Proof.
  intros r arts. subst r arts.
  destruct (analyze_article_103_fields self) as (Hart & Hct & Haff & Hamb & Hint).
  rewrite Hart, Hct, Haff, Hamb, Hint. clear Hart Hct Haff Hamb Hint.
  split; [reflexivity|].
  split; [by intros ->|].
  split.
  { intros a103 ->. split; [reflexivity|].
    destruct (List.find _ (critical_phrases a103)) as [phrase|] eqn:Hf; cbn [default].
    - apply find_some in Hf as [Hin Hb]. split; [|split].
      + right. split; [by apply list_elem_of_In|done].
      + intros Hall. apply list_elem_of_In in Hin.
        rewrite (Hall _ Hin) in Hb. discriminate Hb.
      + by destruct (cites_58 _).
    - split; [by left|]. split; [done|]. by destruct (cites_58 _). }
  destruct (articles self !! "103") as [a103|]; [|by split; [right|]].
  destruct (cites_58 _); split; [by left|done|by right|done].
Qed.

End DependencyExtras.

(** ** The parser (src/legal_parser.py) *)

Section ParserExtras.
Import LegalParser.

Implicit Types (arts acc : gmap string LegalArticle).

Lemma with_refs_nil a : with_refs [] a = a.
Proof. destruct a; unfold with_refs; cbn. by rewrite app_nil_r. Qed.

Lemma with_refs_app l1 l2 a : with_refs l2 (with_refs l1 a) = with_refs (l1 ++ l2) a.
Proof. unfold with_refs; cbn. by rewrite app_assoc. Qed.

Lemma add_referenced_by_with_refs no a : add_referenced_by no a = with_refs [no] a.
Proof. reflexivity. Qed.

(** One step of the inner loop: the guard only skips keys on which [alter]
    would do nothing. *)
Lemma back_fill_step no ref acc b :
  (if Py.dict_in ref acc then alter (add_referenced_by no) ref acc else acc) !! b
    = with_refs (if decide (ref = b) then [no] else []) <$> acc !! b.
Proof.
  unfold Py.dict_in. destruct (decide (ref = b)) as [->|Hne].
  - case_bool_decide as Hin.
    + by rewrite lookup_alter_eq.
    + destruct (acc !! b) eqn:Hb; [|done]. exfalso. apply Hin. by eexists.
  - assert ((alter (add_referenced_by no) ref acc) !! b = acc !! b) as Ha
      by (by apply lookup_alter_ne).
    case_bool_decide; rewrite ?Ha;
      destruct (acc !! b); cbn; by rewrite ?with_refs_nil.
Qed.

Lemma back_fill_of_lookup no refs acc b :
  ∃ extra, back_fill_of no refs acc !! b = with_refs extra <$> acc !! b
           ∧ ∀ x, x ∈ extra ↔ x = no ∧ b ∈ refs.
Proof.
  unfold back_fill_of. induction refs as [|r refs IH] using rev_ind.
  - exists []. cbn. split.
    + destruct (acc !! b); cbn; by rewrite ?with_refs_nil.
    + intros x. rewrite !elem_of_nil. tauto.
  - destruct IH as (extra & Hl & Hx).
    rewrite foldl_snoc, back_fill_step, Hl.
    exists (extra ++ (if decide (r = b) then [no] else [])). split.
    + destruct (acc !! b); cbn; by rewrite ?with_refs_app.
    + intros x. rewrite !elem_of_app, Hx, list_elem_of_singleton.
      destruct (decide (r = b)) as [->|Hne].
      * rewrite list_elem_of_singleton. tauto.
      * rewrite elem_of_nil. intuition congruence.
Qed.

Lemma build_cross_references_fold (l : list (string * LegalArticle)) acc b :
  ∃ extra,
    foldl (λ acc '(article_no, article),
             back_fill_of article_no (references_to article) acc) acc l !! b
      = with_refs extra <$> acc !! b
    ∧ ∀ x, x ∈ extra ↔ ∃ a, (x, a) ∈ l ∧ b ∈ references_to a.
Proof.
  induction l as [|[k a] l IH] using rev_ind.
  - exists []. cbn. split.
    + destruct (acc !! b); cbn; by rewrite ?with_refs_nil.
    + intros x. rewrite elem_of_nil. split; [done|].
      intros (? & Hin & _). by apply elem_of_nil in Hin.
  - destruct IH as (e1 & Hl & Hx). rewrite foldl_snoc.
    destruct (back_fill_of_lookup k (references_to a)
                (foldl (λ acc '(article_no, article),
                          back_fill_of article_no (references_to article) acc)
                       acc l) b) as (e2 & Hl2 & Hx2).
    exists (e1 ++ e2). split.
    + rewrite Hl2, Hl. destruct (acc !! b); cbn; by rewrite ?with_refs_app.
    + intros x. rewrite elem_of_app, Hx, Hx2. split.
      * intros [(a' & Hin & Hb)|[-> Hb]].
        -- exists a'. split; [|done]. apply elem_of_app. by left.
        -- exists a. split; [|done]. apply elem_of_app. right.
           by apply list_elem_of_singleton.
      * intros (a' & Hin & Hb). apply elem_of_app in Hin as [Hin|Hin].
        -- left. by exists a'.
        -- apply list_elem_of_singleton in Hin. injection Hin as -> ->. by right.
Qed.

(** X16.  [_build_cross_references] keeps the set of loaded articles and
    changes nothing of an article but its [referenced_by] list, to which it
    appends: afterwards [a] is among the [referenced_by] of a loaded
    article [b] exactly when it was there before or [a] is a loaded article
    that lists [b] among its references.  References to articles that are
    not loaded are dropped. *)
Theorem build_cross_references_spec arts (b : string) :
  ∃ extra,
    _build_cross_references arts !! b = with_refs extra <$> arts !! b
    ∧ (∀ a, a ∈ extra ↔ ∃ art, arts !! a = Some art ∧ b ∈ references_to art)
    ∧ (arts !! b = None → _build_cross_references arts !! b = None)
    ∧ (∀ ab, arts !! b = Some ab →
         ∃ mb, _build_cross_references arts !! b = Some mb
               ∧ referenced_by mb = referenced_by ab ++ extra
               ∧ references_to mb = references_to ab
               ∧ text mb = text ab ∧ key_terms mb = key_terms ab
               ∧ constraints mb = constraints ab).
Proof.
  unfold _build_cross_references.
  destruct (build_cross_references_fold (map_to_list arts) arts b)
    as (extra & Hl & Hx).
  exists extra. split; [exact Hl|]. split; [|split].
  - intros a. rewrite Hx. split; intros (art & Hin & Hb); exists art;
      (split; [|done]); by apply elem_of_map_to_list.
  - intros Hb. by rewrite Hl, Hb.
  - intros ab Hb. exists (with_refs extra ab). rewrite Hl, Hb. by cbn.
Qed.

(** A phrase that starts another one is found wherever the longer one
    is. *)
Lemma prefix_trans p q t :
  String.prefix p q = true → String.prefix q t = true → String.prefix p t = true.
Proof.
  revert q t; induction p as [|c p IH]; intros q t Hpq Hqt; [by destruct t|].
  destruct q as [|c' q]; [done|]. destruct t as [|c'' t]; [done|].
  cbn in *.
  destruct (Ascii.ascii_dec c c') as [->|]; [|done].
  destruct (Ascii.ascii_dec c' c'') as [->|]; [|done].
  destruct (Ascii.ascii_dec c'' c''); [|done]. by apply (IH q t).
Qed.

Lemma str_in_prefix p q t :
  String.prefix p q = true → Py.str_in q t = true → Py.str_in p t = true.
Proof.
  intros Hpq. induction t as [|c t IH].
  - change (Py.str_in q "") with (String.prefix q "" || false).
    change (Py.str_in p "") with (String.prefix p "" || false).
    rewrite !orb_false_r. by apply prefix_trans.
  - change (Py.str_in q (String c t))
      with (String.prefix q (String c t) || Py.str_in q t).
    change (Py.str_in p (String c t))
      with (String.prefix p (String c t) || Py.str_in p t).
    intros [Hq|Hq]%orb_true_iff; apply orb_true_iff.
    + left. by apply (prefix_trans p q).
    + right. by apply IH.
Qed.

Lemma examination_disjunct t :
  Py.str_in "εξέταση" t || Py.str_in "εξέτασης" t = Py.str_in "εξέταση" t.
Proof.
  destruct (Py.str_in "εξέταση" t) eqn:H1; [done|].
  destruct (Py.str_in "εξέτασης" t) eqn:H2; [|done].
  rewrite (str_in_prefix "εξέταση" "εξέτασης" t) in H1; [done|reflexivity|done].
Qed.

(** X17.  A parsed article: its key terms are those of the six whose Greek
    word occurs in the text, each once and in the fixed order (the second
    spelling tested for "examination" adds nothing); it carries the single
    constraint "prohibition", with exactly one critical phrase, when the
    text holds one of the two prohibition phrases, and no constraint and no
    critical phrase otherwise; its [referenced_by] list starts empty. *)
Theorem parsed_article_terms (strip : string → string)
    (extract_references : string → list string) (article_data : gmap string string) :
  let a := LegalArticle_init strip extract_references article_data in
  let t := default "" (article_data !! "articleText") in
  text a = t ∧
  key_terms a
    = fst <$> filter (λ tw : string * string, Py.str_in tw.2 t = true)
                     key_term_words ∧
  constraints a = (if prohibited t then ["prohibition"] else []) ∧
  critical_phrases a
    = (if prohibited t then [_extract_constraint_phrase strip t] else []) ∧
  length (critical_phrases a) = length (constraints a) ∧
  references_to a = extract_references t ∧
  referenced_by a = [].
Proof.
  intros a t. subst a. unfold LegalArticle_init, _parse, _extract_references.
  cbn [text key_terms constraints critical_phrases references_to referenced_by].
  fold t. rewrite examination_disjunct. fold (prohibited t).
  split; [reflexivity|]. split; [|by destruct (prohibited t)].
  unfold key_term_words. rewrite !filter_cons, filter_nil. cbn [fst snd].
  destruct (Py.str_in "τροποποίηση" t), (Py.str_in "εξέταση" t),
    (Py.str_in "απαλλαγή" t), (Py.str_in "μέρισμα" t),
    (Py.str_in "προθεσμία" t), (Py.str_in "αποκατάσταση" t); reflexivity.
Qed.

End ParserExtras.

(** ** From the text of the articles to the conflicts *)

Section ParsedPipeline.
Import LegalParser.

Lemma parsed_has_prohibition strip extract_references article_data :
  Py.list_in "prohibition"
    (constraints (LegalArticle_init strip extract_references article_data))
    = prohibited (default "" (article_data !! "articleText")).
Proof.
  unfold LegalArticle_init, _parse, _extract_references; cbn [constraints text].
  fold (prohibited (default "" (article_data !! "articleText"))).
  by destruct (prohibited _).
Qed.

Lemma parsed_has_modification strip extract_references article_data :
  Py.list_in "modification"
    (key_terms (LegalArticle_init strip extract_references article_data))
    = Py.str_in "τροποποίηση" (default "" (article_data !! "articleText")).
Proof.
  unfold LegalArticle_init, _parse, _extract_references; cbn [key_terms text].
  set (t := default "" (article_data !! "articleText")).
  destruct (Py.str_in "τροποποίηση" t), (Py.str_in "εξέταση" t || Py.str_in "εξέτασης" t),
    (Py.str_in "απαλλαγή" t), (Py.str_in "μέρισμα" t),
    (Py.str_in "προθεσμία" t), (Py.str_in "αποκατάσταση" t); reflexivity.
Qed.

(** X18.  With articles 103 and 143 as the parser builds them from their
    JSON objects, [detect_conflicts] reports the prohibition-against-
    modification conflict exactly when the text of 103 holds one of the two
    prohibition phrases and the text of 143 holds the word for
    modification; and the node of 103 in the built graph is flagged as
    constrained exactly when its text holds a prohibition phrase. *)
Theorem parsed_articles_conflict (strip : string → string)
    (extract_references : string → list string)
    (data103 data143 : gmap string string)
    (others : gmap string LegalArticle) (v : bool) :
  let a103 := LegalArticle_init strip extract_references data103 in
  let a143 := LegalArticle_init strip extract_references data143 in
  let arts := <["103" := a103]> (<["143" := a143]> others) in
  let self := CrossReferenceAnalyzer.__init__ arts v in
  (CrossReferenceAnalyzer.prohibition_vs_modification
     ∈ CrossReferenceAnalyzer.detect_conflicts self
   ↔ prohibited (default "" (data103 !! "articleText")) = true
     ∧ Py.str_in "τροποποίηση" (default "" (data143 !! "articleText")) = true) ∧
  NX.node_has_constraints
    <$> NX._node (CrossReferenceAnalyzer.build_graph self).1 !! "103"
    = Some (Some (prohibited (default "" (data103 !! "articleText")))).
Proof.
  intros a103 a143 arts self. split.
  - rewrite detect_conflicts_closed. subst self.
    cbn [CrossReferenceAnalyzer.articles CrossReferenceAnalyzer.__init__].
    assert (prohibition_met arts
            = prohibited (default "" (data103 !! "articleText"))
              && Py.str_in "τροποποίηση" (default "" (data143 !! "articleText")))
      as ->.
    { unfold prohibition_met. subst arts.
      rewrite lookup_insert_eq, lookup_insert_ne by done.
      rewrite lookup_insert_eq. subst a103 a143.
      by rewrite parsed_has_prohibition, parsed_has_modification. }
    rewrite <- andb_true_iff.
    destruct (_ && Py.str_in _ _), (Py.dict_in "143" arts && Py.dict_in "28" arts);
      cbn [app]; rewrite ?elem_of_cons, ?elem_of_nil;
      intuition (try done; try congruence).
  - subst self. cbn [CrossReferenceAnalyzer.build_graph fst
      CrossReferenceAnalyzer.articles CrossReferenceAnalyzer.graph
      CrossReferenceAnalyzer.__init__].
    rewrite build_graph_on_nodes. subst arts. rewrite lookup_insert_eq. cbn.
    do 2 f_equal. subst a103.
    unfold LegalArticle_init, _parse, _extract_references; cbn [constraints text].
    fold (prohibited (default "" (data103 !! "articleText"))).
    by destruct (prohibited _).
Qed.

End ParsedPipeline.

(** ** The thresholds of the labels *)

Section LabelExtras.
Import FactChecker.

(** X19.  The recommendation, the closing line of [main] and the
    confidence label without critical ambiguity switch at the same totals,
    70 and 50: the strong recommendation, the strong-basis line and "high
    confidence" go together, as do the weak recommendation, the weak-basis
    line and "low confidence".  With a critical ambiguity the confidence is
    one step lower than that: never high, and low already below 70. *)
Theorem labels_switch_together (self : instance) (total : Z) :
  (_generate_recommendation self total = recommendation_strong
   ↔ Main.closing_line total = "✓ Η ερμηνεία έχει ισχυρή νομική βάση") ∧
  (_generate_recommendation self total = recommendation_weak
   ↔ Main.closing_line total = "✗ Η ερμηνεία έχει αδύναμη νομική βάση") ∧
  (_generate_recommendation self total = recommendation_strong ↔ 70 ≤ total) ∧
  (_generate_recommendation self total = recommendation_weak ↔ total < 50) ∧
  (critical_ambiguities self = 0%nat →
     (_determine_confidence self total = "Υψηλή Εμπιστοσύνη / High Confidence"
      ↔ _generate_recommendation self total = recommendation_strong)
     ∧ (_determine_confidence self total = "Χαμηλή Εμπιστοσύνη / Low Confidence"
        ↔ _generate_recommendation self total = recommendation_weak)) ∧
  ((0 < critical_ambiguities self)%nat →
     _determine_confidence self total ≠ "Υψηλή Εμπιστοσύνη / High Confidence"
     ∧ (_determine_confidence self total = "Χαμηλή Εμπιστοσύνη / Low Confidence"
        ↔ total < 70)).
Proof.
  unfold _generate_recommendation, Main.closing_line, _determine_confidence.
  assert (recommendation_strong ≠ recommendation_disputed) as N1 by done.
  assert (recommendation_strong ≠ recommendation_weak) as N2 by done.
  assert (recommendation_disputed ≠ recommendation_weak) as N3 by done.
  repeat split; intros; repeat case_bool_decide;
    try lia; try done; try congruence.
Qed.

(** The labels of a total of 60 with one critical ambiguity, through the
    theorem. *)
Lemma labels_switch_together_witness :
  _determine_confidence (Examples.checker ∅ Examples.one_critical) 60
    ≠ "Υψηλή Εμπιστοσύνη / High Confidence".
Proof.
  destruct (labels_switch_together (Examples.checker ∅ Examples.one_critical) 60)
    as (_ & _ & _ & _ & _ & H).
  apply H. vm_compute. lia.
Defined.

End LabelExtras.

(** ** The sentence of a prohibition *)

Section ConstraintPhrase.
Import LegalParser.

Lemma str_in_nil p : Py.str_in p "" = String.prefix p "" || false.
Proof. reflexivity. Qed.

Lemma str_in_cons p c t :
  Py.str_in p (String c t) = String.prefix p (String c t) || Py.str_in p t.
Proof. reflexivity. Qed.

Lemma prefix_str_in p s : String.prefix p s = true → Py.str_in p s = true.
Proof.
  intros H. destruct s; [rewrite str_in_nil|rewrite str_in_cons]; by rewrite H.
Qed.

(** [str.split] never returns an empty list. *)
Lemma split_char_cons c t : ∃ s rest, Py.split_char c t = s :: rest.
Proof.
  destruct t as [|a t]; cbn; [by eexists _, _|].
  destruct (Ascii.eqb a c); [by eexists _, _|].
  destruct (Py.split_char c t); by eexists _, _.
Qed.

(** A phrase without full stop that starts the text starts its first
    sentence. *)
Lemma prefix_first_piece p t :
  dot_free p = true → String.prefix p t = true →
  ∃ s rest, Py.split_char Py.dot t = s :: rest ∧ String.prefix p s = true.
Proof.
  revert t; induction p as [|x p IH]; intros t Hfree Hpre.
  - destruct (split_char_cons Py.dot t) as (s & rest & Hs).
    exists s, rest. split; [done|]. by destruct s.
  - cbn in Hfree. apply andb_true_iff in Hfree as [Hx Hfree].
    apply negb_true_iff in Hx.
    destruct t as [|b t]; [done|]. cbn in Hpre.
    destruct (Ascii.ascii_dec x b) as [<-|]; [|done].
    destruct (IH t Hfree Hpre) as (s & rest & Hs & Hps).
    exists (String x s), rest. cbn. rewrite Hx, Hs. split; [done|].
    by destruct (Ascii.ascii_dec x x).
Qed.

(** A phrase without full stop that occurs in the text occurs in one of
    its sentences. *)
Lemma str_in_piece p t :
  dot_free p = true → Py.str_in p t = true →
  ∃ s, s ∈ Py.split_char Py.dot t ∧ Py.str_in p s = true.
Proof.
  intros Hfree. induction t as [|a t IH].
  - rewrite str_in_nil, orb_false_r. intros Hpre.
    destruct (prefix_first_piece p "" Hfree Hpre) as (s & rest & Hs & Hps).
    exists s. rewrite Hs. split; [apply list_elem_of_here|by apply prefix_str_in].
  - rewrite str_in_cons. intros [Hpre|Hin]%orb_true_iff.
    + destruct (prefix_first_piece p (String a t) Hfree Hpre)
        as (s & rest & Hs & Hps).
      exists s. rewrite Hs. split; [apply list_elem_of_here|by apply prefix_str_in].
    + destruct (IH Hin) as (s & Hs & Hps). cbn.
      destruct (Ascii.eqb a Py.dot).
      * exists s. split; [by apply list_elem_of_further|done].
      * destruct (Py.split_char Py.dot t) as [|h tl]; [by apply elem_of_nil in Hs|].
        apply elem_of_cons in Hs as [->|Hs].
        -- exists (String a h). split; [apply list_elem_of_here|].
           rewrite str_in_cons, Hps. apply orb_true_r.
        -- exists s. split; [by apply list_elem_of_further|done].
Qed.

(** Conversely, what occurs in a sentence occurs in the text. *)
Lemma prefix_piece_text p t s rest :
  Py.split_char Py.dot t = s :: rest → String.prefix p s = true →
  String.prefix p t = true.
Proof.
  revert t s rest; induction p as [|x p IH]; intros t s rest Hsp Hps.
  - by destruct t.
  - destruct s as [|b s]; [done|]. cbn in Hps.
    destruct (Ascii.ascii_dec x b) as [Hxb|]; [subst b|done].
    destruct t as [|a t]; [discriminate Hsp|]. cbn in Hsp.
    destruct (Ascii.eqb a Py.dot); [discriminate Hsp|].
    destruct (Py.split_char Py.dot t) as [|h tl] eqn:Ht.
    + simplify_eq. cbn.
      destruct (Ascii.ascii_dec x x); [|done].
      destruct p; [by destruct t|discriminate Hps].
    + simplify_eq. cbn.
      destruct (Ascii.ascii_dec x x); [|done]. by apply (IH t s rest).
Qed.

Lemma str_in_empty_piece p t : Py.str_in p "" = true → Py.str_in p t = true.
Proof.
  rewrite str_in_nil, orb_false_r. intros Hp.
  destruct p; [|discriminate Hp]. by destruct t.
Qed.

Lemma str_in_first_piece p t s rest :
  Py.split_char Py.dot t = s :: rest → Py.str_in p s = true →
  Py.str_in p t = true.
Proof.
  revert s rest; induction t as [|a t IH]; intros s rest Hsp Hps.
  - cbn in Hsp. by injection Hsp as <- <-.
  - pose proof Hsp as Hsp'. cbn in Hsp.
    destruct (Ascii.eqb a Py.dot).
    + injection Hsp as <- <-. by apply str_in_empty_piece.
    + destruct (Py.split_char Py.dot t) as [|h tl] eqn:Ht.
      * destruct (split_char_cons Py.dot t) as (? & ? & Hc).
        rewrite Ht in Hc. discriminate Hc.
      * injection Hsp as <- <-. rewrite str_in_cons in Hps.
        apply orb_true_iff in Hps as [Hps|Hps].
        -- apply prefix_str_in. by apply (prefix_piece_text p _ _ _ Hsp').
        -- rewrite str_in_cons. apply orb_true_iff. right.
           by apply (IH h tl).
Qed.

Lemma str_in_any_piece p t s :
  s ∈ Py.split_char Py.dot t → Py.str_in p s = true → Py.str_in p t = true.
Proof.
  revert s; induction t as [|a t IH]; intros s Hin Hps.
  - cbn in Hin. by apply list_elem_of_singleton in Hin as ->.
  - destruct (Py.split_char Py.dot (String a t)) as [|s0 rest] eqn:Hsp;
      [by apply elem_of_nil in Hin|].
    apply elem_of_cons in Hin as [->|Hin];
      [by apply (str_in_first_piece p _ _ _ Hsp)|].
    rewrite str_in_cons. apply orb_true_iff. right. apply (IH s); [|done].
    cbn in Hsp. destruct (Ascii.eqb a Py.dot).
    + by injection Hsp as <- <-.
    + destruct (Py.split_char Py.dot t) as [|h tl].
      * injection Hsp as <- <-. by apply elem_of_nil in Hin.
      * injection Hsp as <- <-. by apply list_elem_of_further.
Qed.

Lemma find_is_Some {A} (P : A → bool) (l : list A) x :
  x ∈ l → P x = true → ∃ y, List.find P l = Some y.
Proof.
  intros Hin HP. destruct (List.find P l) as [y|] eqn:Hf; [by eexists|].
  apply list_elem_of_In in Hin. rewrite (find_none _ _ Hf _ Hin) in HP. done.
Qed.

(** X20.  When the text holds a prohibition phrase, which is when [_parse]
    calls it, [_extract_constraint_phrase] never falls through to the empty
    string: it returns the stripped first piece of the text, cut at full
    stops, that holds a prohibition phrase, and such a piece exists.  When
    the text holds none it returns the empty string. *)
Theorem extract_constraint_phrase_finds (strip : string → string) (t : string) :
  (prohibited t = true →
   ∃ sentence,
     sentence ∈ Py.split_char Py.dot t
     ∧ prohibited sentence = true
     ∧ _extract_constraint_phrase strip t = strip sentence) ∧
  (prohibited t = false → _extract_constraint_phrase strip t = "").
Proof.
  unfold _extract_constraint_phrase. split.
  - intros Hp.
    assert (∃ s, s ∈ Py.split_char Py.dot t ∧ prohibited s = true) as (s & Hs & Hps).
    { unfold prohibited in Hp. apply orb_true_iff in Hp as [Hp|Hp].
      - destruct (str_in_piece "δεν επιτρέπει" t eq_refl Hp) as (s & Hs & Hps).
        exists s. split; [done|]. unfold prohibited. by rewrite Hps.
      - destruct (str_in_piece "δεν επιτρέπεται" t eq_refl Hp) as (s & Hs & Hps).
        exists s. split; [done|]. unfold prohibited. rewrite Hps. apply orb_true_r. }
    destruct (find_is_Some (λ sentence, Py.str_in "δεν επιτρέπει" sentence
                                        || Py.str_in "δεν επιτρέπεται" sentence)
                _ s Hs Hps) as [y Hy].
    rewrite Hy. apply find_some in Hy as [Hin HP].
    exists y. split; [by apply list_elem_of_In|]. split; [exact HP|reflexivity].
  - intros Hp. destruct (List.find _ _) as [y|] eqn:Hf; [|reflexivity].
    exfalso. apply find_some in Hf as [Hin HP].
    apply list_elem_of_In in Hin.
    assert (prohibited t = true) as Ht; [|by rewrite Ht in Hp].
    unfold prohibited. apply orb_true_iff.
    apply orb_true_iff in HP as [HP|HP]; [left|right];
      by apply (str_in_any_piece _ t y).
Qed.

(** The sentence of the example article 103, through the theorem. *)
Lemma extract_constraint_phrase_finds_witness :
  ∃ sentence,
    prohibited sentence = true
    ∧ _extract_constraint_phrase (λ s, s) (text Examples.art103) = sentence.
Proof.
  destruct (extract_constraint_phrase_finds (λ s, s) (text Examples.art103))
    as [H _].
  destruct (H eq_refl) as (sentence & _ & Hp & He).
  exists sentence. split; [exact Hp|exact He].
Defined.

End ConstraintPhrase.

(** [split_char] on a short text: a trailing full stop leaves an empty last
    piece, as [str.split] does. *)
Example split_char_trailing :
  Py.split_char Py.dot "a.b." = ["a"; "b"; ""] ∧ Py.split_char Py.dot "" = [""].
Proof. split; reflexivity. Qed.
